(** * cfssljson: splitting a CFSSL JSON response into certificate files

    A shallow embedding of [cmd/cfssljson/cfssljson.go] and the properties
    of its functions: [writeOutput] with [writeFile] and
    [writeErrorAndExit], and [main] with [readFile].

    Go strings and byte slices are both sequences of bytes; they are
    modelled by [string] (a list of 8-bit characters), so that the
    conversions [string(b)] and [[]byte(s)] are the identity.  A Go
    [map[string]T] is a [gmap string T].  What the program does to the
    outside world (standard output, the diagnostic stream, the files it
    writes, the way the process ends) is threaded through a small
    state-and-halt monad. *)

From stdpp Require Import gmap strings list fin_maps.
From Stdlib Require Import ZArith NArith Ascii String DecimalString.

#[local] Set Warnings "-register-all".
#[local] Open Scope string_scope.
#[local] Open Scope list_scope.

(** ** Characters the source writes with escapes *)

Definition LF : string := String "010"%char EmptyString.
Definition TAB : string := String "009"%char EmptyString.

(** ** Data model *)

(** The dynamic values [encoding/json] stores in an [interface{}]:
    [nil], [bool], [float64], [string], [[]interface{}] and
    [map[string]interface{}].  A [float64] is kept as the numeric literal
    it was decoded from; the program never computes with one. *)
Inductive json : Type :=
| JNull
| JBool (b : bool)
| JNum (lit : string)
| JStr (s : string)
| JArr (l : list json)
| JObj (m : gmap string json).

(** [os.FileMode]; [oct u g o] is the Go literal [0ugo]. *)
Definition FileMode : Type := N.
Definition oct (u g o : N) : FileMode := (u * 64 + g * 8 + o)%N.

(** [type ResponseMessage struct] *)
Record ResponseMessage : Type := mkResponseMessage {
  Code : Z;
  Message : string
}.

(** [type Response struct] *)
Record Response : Type := mkResponse {
  Success : bool;
  Result : gmap string json;
  Errors : list ResponseMessage;
  Messages : list ResponseMessage
}.

(** [type outputFile struct] *)
Record outputFile : Type := mkOutputFile {
  Filename : string;
  Contents : string;
  IsBinary : bool;
  Perms : FileMode
}.

(** ** The world the process acts on *)

(** Everything written to standard output and to the diagnostic stream so
    far, and the successful [ioutil.WriteFile] calls in the order they were
    made (name, contents, permission bits). *)
Record World : Type := mkWorld {
  stdout : string;
  stderr : string;
  files : list (string * string * FileMode)
}.

(** A failed type assertion [v.(string)]: the value that was found where a
    string was required. *)
Inductive runtime_error : Type :=
| TypeAssertionError (v : json).

(** The two ways the process stops before [writeOutput] returns:
    [os.Exit(code)], and a run-time panic that nothing recovers.  What the
    Go runtime itself then reports (the panic and the stack, on the
    diagnostic stream, with exit status 2) is outside the world modelled
    here, which records what the program writes. *)
Inductive halt : Type :=
| Exit (code : Z)
| Panic (e : runtime_error).

Definition M (A : Type) : Type := World → World * (halt + A).

#[export] Instance M_ret : MRet M := λ A x w, (w, inr x).
#[export] Instance M_bind : MBind M := λ A B f m w,
  match m w with
  | (w', inr a) => f a w'
  | (w', inl h) => (w', inl h)
  end.

Definition os_Exit {A : Type} (code : Z) : M A := λ w, (w, inl (Exit code)).
Definition panic {A : Type} (e : runtime_error) : M A := λ w, (w, inl (Panic e)).

(** The world after more text on a stream, or one more file. *)
Definition to_stdout (s : string) (w : World) : World :=
  mkWorld (stdout w +:+ s) (stderr w) (files w).
Definition to_stderr (s : string) (w : World) : World :=
  mkWorld (stdout w) (stderr w +:+ s) (files w).
Definition to_files (fs : list (string * string * FileMode)) (w : World) : World :=
  mkWorld (stdout w) (stderr w) (files w ++ fs).

(** [fmt.Fprintf(os.Stderr, ...)] and [fmt.Fprintf(os.Stdout, ...)], applied
    to the text the format expands to. *)
Definition Fprint_Stderr (s : string) : M unit := λ w, (to_stderr s w, inr tt).
Definition Fprint_Stdout (s : string) : M unit := λ w, (to_stdout s w, inr tt).

(** [for _, x := range xs { body x }] *)
Fixpoint for_range {A : Type} (xs : list A) (body : A → M unit) : M unit :=
  match xs with
  | [] => mret tt
  | x :: xs' => body x;; for_range xs' body
  end.

(** ** The Go standard library and the file system *)

(** The library functions [writeOutput] calls, as an interface.  The
    properties of the program are proved for every implementation of it;
    [GoModel] below implements it for the closed examples.

    - [GoError] are the values of type [error], [Error] their method.
    - [json_Unmarshal_map data] is [json.Unmarshal(data, &input)] for an
      [input] that starts as the empty map; [json_Unmarshal_Response] is
      the same call on a zero [Response].
    - [json_Marshal] is [json.Marshal] on a [map[string]string], and
      [fmt_map] what the verb [%v] prints for one.
    - [base64_DecodeString] and [base64_EncodeToString] are the methods of
      [base64.StdEncoding].
    - [WriteFile_err name data perm w] is the error of
      [ioutil.WriteFile(name, data, perm)] in world [w], if it fails. *)
Class GoLib : Type := mkGoLib {
  GoError : Type;
  Error : GoError → string;
  json_Unmarshal_map : string → GoError + gmap string json;
  json_Unmarshal_Response : string → GoError + Response;
  json_Marshal : gmap string string → GoError + string;
  fmt_map : gmap string string → string;
  base64_DecodeString : string → GoError + string;
  base64_EncodeToString : string → string;
  WriteFile_err : string → string → FileMode → World → option GoError
}.

Section Program.
Context {L : GoLib}.

Definition ioutil_WriteFile (filename data : string) (perm : FileMode)
  : M (option GoError) :=
  λ w, match WriteFile_err filename data perm w with
       | Some err => (w, inr (Some err))
       | None => (to_files [(filename, data, perm)] w, inr None)
       end.

(** [func writeFile(filespec, contents string, perms os.FileMode)] *)
Definition writeFile (filespec contents : string) (perms : FileMode) : M unit :=
  err ← ioutil_WriteFile filespec contents perms;
  match err with
  | Some e => Fprint_Stderr (Error e +:+ LF);; os_Exit 1
  | None => mret tt
  end.

(** [func writeErrorAndExit(formatString string, arguments ...interface{})],
    applied to the text the format expands to. *)
Definition writeErrorAndExit {A : Type} (text : string) : M A :=
  Fprint_Stderr text;; os_Exit 1.

(** The type assertion [contents.(string)], which panics on any other
    dynamic type and on [nil]. *)
Definition assert_string (contents : json) : M string :=
  match contents with
  | JStr s => mret s
  | v => panic (TypeAssertionError v)
  end.

(** *** [writeOutput], envelope (source lines 96 to 117)

    The value of [input] at line 118, unless the process has stopped. *)
Definition unwrap (fileData : string) (bare : bool) : M (gmap string json) :=
  if bare then
    match json_Unmarshal_map fileData with
    | inl _ => writeErrorAndExit ("Failed to parse JSON: " +:+ fileData +:+ LF)
    | inr input => mret input
    end
  else
    match json_Unmarshal_Response fileData with
    | inl err => writeErrorAndExit ("Failed to parse input: " +:+ Error err +:+ LF)
    | inr response =>
        if negb (Success response) then
          Fprint_Stderr ("Request failed:" +:+ LF);;
          for_range (Errors response)
            (λ msg, Fprint_Stderr (TAB +:+ Message msg +:+ LF));;
          os_Exit 1
        else mret (Result response)
    end.

(** *** [writeOutput], the fields (source lines 119 to 207) *)

(** lines 119 to 130; [cert], declared at line 92, keeps its zero value,
    the empty string, when neither key is present. *)
Definition cert_step (baseName : string) (input : gmap string json)
    (outs : list outputFile) : M (list outputFile) :=
  cert ← match input !! "cert" with
         | Some contents => assert_string contents
         | None =>
             match input !! "certificate" with
             | Some contents => assert_string contents
             | None => mret EmptyString
             end
         end;
  if decide (cert ≠ EmptyString) then
    mret (outs ++ [ {| Filename := baseName +:+ ".pem";
                       Contents := cert;
                       IsBinary := false;
                       Perms := oct 6 6 4 |} ])
  else mret outs.

(** lines 132 to 143, the same for [key], declared at line 93. *)
Definition key_step (baseName : string) (input : gmap string json)
    (outs : list outputFile) : M (list outputFile) :=
  key ← match input !! "key" with
        | Some contents => assert_string contents
        | None =>
            match input !! "private_key" with
            | Some contents => assert_string contents
            | None => mret EmptyString
            end
        end;
  if decide (key ≠ EmptyString) then
    mret (outs ++ [ {| Filename := baseName +:+ "-key.pem";
                       Contents := key;
                       IsBinary := false;
                       Perms := oct 6 0 0 |} ])
  else mret outs.

(** lines 145 to 153: no alias, and no test of the string found. *)
Definition encrypted_key_step (baseName : string) (input : gmap string json)
    (outs : list outputFile) : M (list outputFile) :=
  match input !! "encrypted_key" with
  | Some contents =>
      encKey ← assert_string contents;
      mret (outs ++ [ {| Filename := baseName +:+ "-key.enc";
                         Contents := encKey;
                         IsBinary := true;
                         Perms := oct 6 0 0 |} ])
  | None => mret outs
  end.

(** lines 155 to 166, as for the certificate, with [csr] of line 94. *)
Definition csr_step (baseName : string) (input : gmap string json)
    (outs : list outputFile) : M (list outputFile) :=
  csr ← match input !! "csr" with
        | Some contents => assert_string contents
        | None =>
            match input !! "certificate_request" with
            | Some contents => assert_string contents
            | None => mret EmptyString
            end
        end;
  if decide (csr ≠ EmptyString) then
    mret (outs ++ [ {| Filename := baseName +:+ ".csr";
                       Contents := csr;
                       IsBinary := false;
                       Perms := oct 6 4 4 |} ])
  else mret outs.

(** lines 168 to 193; [v, ok := m[k].(T)] yields [ok = false] when the key
    is missing, holds [nil] or holds a value of another type. *)
Definition bundle_step (baseName : string) (input : gmap string json)
    (outs : list outputFile) : M (list outputFile) :=
  match input !! "result" with
  | Some (JObj result) =>
      match result !! "bundle" with
      | Some (JObj bundle) =>
          certificateBundle ←
            match bundle !! "bundle" with
            | Some (JStr s) => mret s
            | _ => writeErrorAndExit ("inner bundle parsing failed!" +:+ LF)
            end;
          rootCertificate ←
            match bundle !! "root" with
            | Some (JStr s) => mret s
            | _ => writeErrorAndExit ("root parsing failed!" +:+ LF)
            end;
          mret (outs ++
                [ {| Filename := baseName +:+ "-bundle.pem";
                     Contents := certificateBundle +:+ LF +:+ rootCertificate;
                     IsBinary := false;
                     Perms := oct 6 4 4 |};
                  {| Filename := baseName +:+ "-root.pem";
                     Contents := rootCertificate;
                     IsBinary := false;
                     Perms := oct 6 4 4 |} ])
      | _ => mret outs
      end
  | _ => mret outs
  end.

(** lines 195 to 207: the type assertion comes first, then the decoding. *)
Definition ocsp_step (baseName : string) (input : gmap string json)
    (outs : list outputFile) : M (list outputFile) :=
  match input !! "ocspResponse" with
  | Some contents =>
      s ← assert_string contents;
      match base64_DecodeString s with
      | inl err =>
          writeErrorAndExit ("Failed to parse ocspResponse: " +:+ Error err +:+ LF)
      | inr resp =>
          mret (outs ++ [ {| Filename := baseName +:+ "-response.der";
                             Contents := resp;
                             IsBinary := true;
                             Perms := oct 6 4 4 |} ])
      end
  | None => mret outs
  end.

(** The sequence [outs] as it stands at line 208. *)
Definition extract (baseName : string) (input : gmap string json)
  : M (list outputFile) :=
  outs ← cert_step baseName input [];
  outs ← key_step baseName input outs;
  outs ← encrypted_key_step baseName input outs;
  outs ← csr_step baseName input outs;
  outs ← bundle_step baseName input outs;
  ocsp_step baseName input outs.

(** *** [writeOutput], the output (source lines 209 to 234) *)

(** What the loops print or store for one artifact: its contents, base64
    encoded when it is binary. *)
Definition shown (o : outputFile) : string :=
  if IsBinary o then base64_EncodeToString (Contents o) else Contents o.

(** lines 210 to 216 *)
Definition jsonOutputDict (outs : list outputFile) : gmap string string :=
  foldl (λ dict o, <[Filename o := shown o]> dict) ∅ outs.

Definition sink (outs : list outputFile) (stdoutOutput jsonOutput : bool)
  : M unit :=
  if jsonOutput then
    match json_Marshal (jsonOutputDict outs) with
    | inl _ =>
        writeErrorAndExit
          ("Failed to marshal to JSON the following data: "
             +:+ fmt_map (jsonOutputDict outs) +:+ LF)
    | inr jsonData => Fprint_Stdout (jsonData +:+ LF)
    end
  else
    for_range outs (λ o,
      if stdoutOutput then Fprint_Stdout (shown o +:+ LF)
      else writeFile (Filename o) (Contents o) (Perms o)).

(** [func writeOutput(baseName string, fileData []byte,
                      bare, stdoutOutput, jsonOutput bool)] *)
Definition writeOutput (baseName fileData : string)
    (bare stdoutOutput jsonOutput : bool) : M unit :=
  input ← unwrap fileData bare;
  outs ← extract baseName input;
  sink outs stdoutOutput jsonOutput.

End Program.

(** ** The command line (source lines 15 to 20 and 56 to 86) *)

(** What [main] takes from outside besides its flags: the text that
    [version.FormatVersion()] returns, the outcome of
    [ioutil.ReadAll(os.Stdin)], and the outcome of [ioutil.ReadFile] for
    each path. *)
Class GoOS {L : GoLib} : Type := mkGoOS {
  version_FormatVersion : string;
  ioutil_ReadAll_Stdin : GoError + string;
  ioutil_ReadFile : string → GoError + string
}.

(** The flags as [flag.Parse()] leaves them (lines 57 to 62: [-bare],
    [-f], [-stdout], [-json], [-version]) and the arguments that follow
    them, [flag.Args()]. *)
Record Flags : Type := mkFlags {
  flag_bare : bool;
  flag_f : string;
  flag_stdout : bool;
  flag_json : bool;
  flag_version : bool;
  flag_args : list string
}.

Section CommandLine.
Context {L : GoLib} {O : GoOS}.

(** [func readFile(filespec string) ([]byte, error)] *)
Definition readFile (filespec : string) : GoError + string :=
  if decide (filespec = "-") then ioutil_ReadAll_Stdin
  else ioutil_ReadFile filespec.

(** [func main()], from line 64 on. *)
Definition main (fl : Flags) : M unit :=
  if flag_version fl then Fprint_Stdout version_FormatVersion
  else
    let baseName :=
      match flag_args fl with
      | [] => "cert"
      | arg0 :: _ => arg0
      end in
    fileData ← match readFile (flag_f fl) with
               | inl err =>
                   writeErrorAndExit ("Failed to read input: " +:+ Error err +:+ LF)
               | inr fileData => mret fileData
               end;
    let stdoutOutput := if flag_json fl then true else flag_stdout fl in
    writeOutput baseName fileData (flag_bare fl) stdoutOutput (flag_json fl).

End CommandLine.

(** ** Conditions on the decoded input

    What the field steps of [writeOutput] require of the mapping they
    read, step by step: a step whose condition fails stops the process. *)
Section Conditions.
Context {L : GoLib}.

(** The value found by [input[name]], else [input[alias]]. *)
Definition consulted (input : gmap string json) (name alias : string)
  : option json :=
  match input !! name with
  | Some v => Some v
  | None => input !! alias
  end.

Definition holds_string (o : option json) : Prop :=
  match o with
  | Some (JStr _) => True
  | _ => False
  end.

Definition string_if_present (o : option json) : Prop :=
  match o with
  | Some (JStr _) | None => True
  | Some _ => False
  end.

(** The type assertions of lines 120 and 122, 133 and 135, 146, and 156
    and 158 succeed. *)
Definition cert_ok (input : gmap string json) : Prop :=
  string_if_present (consulted input "cert" "certificate").
Definition key_ok (input : gmap string json) : Prop :=
  string_if_present (consulted input "key" "private_key").
Definition encrypted_key_ok (input : gmap string json) : Prop :=
  string_if_present (input !! "encrypted_key").
Definition csr_ok (input : gmap string json) : Prop :=
  string_if_present (consulted input "csr" "certificate_request").

(** The mapping [bundle] of line 169, when lines 168 and 169 find one. *)
Definition inner_bundle (input : gmap string json) : option (gmap string json) :=
  match input !! "result" with
  | Some (JObj result) =>
      match result !! "bundle" with
      | Some (JObj bundle) => Some bundle
      | _ => None
      end
  | _ => None
  end.

(** Lines 174 to 181 do not exit. *)
Definition bundle_ok (input : gmap string json) : Prop :=
  match inner_bundle input with
  | Some bundle => holds_string (bundle !! "bundle") ∧ holds_string (bundle !! "root")
  | None => True
  end.

(** Lines 197 to 200 neither panic nor exit. *)
Definition ocsp_ok (input : gmap string json) : Prop :=
  match input !! "ocspResponse" with
  | None => True
  | Some (JStr s) =>
      match base64_DecodeString s with
      | inr _ => True
      | inl _ => False
      end
  | Some _ => False
  end.

(** What the steps append when none of them stops: for a field with an
    alias the text found, unless it is empty; for [encrypted_key] the text
    found; for the bundle both files; for [ocspResponse] the decoded
    bytes. *)
Definition text_artifact (o : option json) (filename : string) (perms : FileMode)
  : list outputFile :=
  match o with
  | Some (JStr s) =>
      if decide (s ≠ EmptyString) then [mkOutputFile filename s false perms] else []
  | _ => []
  end.

Definition encrypted_key_artifact (baseName : string) (input : gmap string json)
  : list outputFile :=
  match input !! "encrypted_key" with
  | Some (JStr s) => [mkOutputFile (baseName +:+ "-key.enc") s true (oct 6 0 0)]
  | _ => []
  end.

Definition bundle_artifacts (baseName : string) (input : gmap string json)
  : list outputFile :=
  match inner_bundle input with
  | Some bundle =>
      match bundle !! "bundle", bundle !! "root" with
      | Some (JStr chain), Some (JStr root) =>
          [mkOutputFile (baseName +:+ "-bundle.pem") (chain +:+ LF +:+ root) false (oct 6 4 4);
           mkOutputFile (baseName +:+ "-root.pem") root false (oct 6 4 4)]
      | _, _ => []
      end
  | None => []
  end.

Definition ocsp_artifact (baseName : string) (input : gmap string json)
  : list outputFile :=
  match input !! "ocspResponse" with
  | Some (JStr s) =>
      match base64_DecodeString s with
      | inr resp => [mkOutputFile (baseName +:+ "-response.der") resp true (oct 6 4 4)]
      | inl _ => []
      end
  | _ => []
  end.

Definition artifacts (baseName : string) (input : gmap string json)
  : list outputFile :=
  text_artifact (consulted input "cert" "certificate") (baseName +:+ ".pem") (oct 6 6 4)
  ++ text_artifact (consulted input "key" "private_key") (baseName +:+ "-key.pem") (oct 6 0 0)
  ++ encrypted_key_artifact baseName input
  ++ text_artifact (consulted input "csr" "certificate_request") (baseName +:+ ".csr") (oct 6 4 4)
  ++ bundle_artifacts baseName input
  ++ ocsp_artifact baseName input.

(** The part of [artifacts] the first four steps append. *)
Definition field_artifacts (baseName : string) (input : gmap string json)
  : list outputFile :=
  text_artifact (consulted input "cert" "certificate") (baseName +:+ ".pem") (oct 6 6 4)
  ++ text_artifact (consulted input "key" "private_key") (baseName +:+ "-key.pem") (oct 6 0 0)
  ++ encrypted_key_artifact baseName input
  ++ text_artifact (consulted input "csr" "certificate_request") (baseName +:+ ".csr") (oct 6 4 4).

(** The artifacts of a sequence that carry one of the given file names,
    in their order. *)
Definition named (names : list string) (outs : list outputFile) : list outputFile :=
  filter (λ o, Filename o ∈ names) outs.

(** The [ioutil.WriteFile] call that stores an artifact. *)
Definition file_entry (o : outputFile) : string * string * FileMode :=
  (Filename o, Contents o, Perms o).

(** Every write to the file system succeeds. *)
Definition writes_succeed : Prop :=
  ∀ name data perm w, WriteFile_err name data perm w = None.

End Conditions.

(** A computation that leaves standard output and the files alone,
    however it ends. *)
Definition quiet {A : Type} (m : M A) : Prop :=
  ∀ w, stdout (m w).1 = stdout w ∧ files (m w).1 = files w.

(** The texts of a list, one after the other. *)
Definition joined (l : list string) : string := foldr String.append EmptyString l.

(** A text without control characters: no byte of it is below 32, so it
    holds no line feed and no carriage return. *)
Fixpoint printable (s : string) : bool :=
  match s with
  | EmptyString => true
  | String c r => (32 <=? N_of_ascii c)%N && printable r
  end.

(** The first [n] bytes of [s], as many as there are, are not ASCII. *)
Fixpoint high_bytes (n : nat) (s : string) : Prop :=
  match n, s with
  | S k, String c r => (0x80 <= N_of_ascii c)%N ∧ high_bytes k r
  | _, _ => True
  end.

(** What the diagnostic stream receives for a failed request. *)
Definition request_failed_text (response : Response) : string :=
  "Request failed:" +:+ LF
    +:+ joined (map (λ msg, TAB +:+ Message msg +:+ LF) (Errors response)).

(** A process that has not written anything yet. *)
Definition blank : World := mkWorld EmptyString EmptyString [].

(** ** A model of the library functions

    An implementation of [GoLib] for the closed examples: UTF-8 as in
    [unicode/utf8], [base64.StdEncoding], and [encoding/json] as its
    documentation describes it, for the two targets the program decodes
    into and the one type it encodes. *)
Module GoModel.

(** *** [unicode/utf8] *)

Definition RuneError : N := 0xFFFD.

Definition byte_in (lo hi b : N) : bool := ((lo <=? b) && (b <=? hi))%N.

(** [utf8.DecodeRuneInString]: the first rune of [s] and its width; an
    invalid or short encoding is [(RuneError, 1)], the empty string
    [(RuneError, 0)]. *)
Definition DecodeRune (s : string) : N * nat :=
  match s with
  | EmptyString => (RuneError, 0)
  | String c0 r =>
      let b0 := N_of_ascii c0 in
      if (b0 <? 0x80)%N then (b0, 1)
      else if byte_in 0xC2 0xDF b0 then
        match r with
        | String c1 _ =>
            let b1 := N_of_ascii c1 in
            if byte_in 0x80 0xBF b1 then
              (N.lor (N.shiftl (N.land b0 0x1F) 6) (N.land b1 0x3F), 2)
            else (RuneError, 1)
        | _ => (RuneError, 1)
        end
      else if byte_in 0xE0 0xEF b0 then
        match r with
        | String c1 (String c2 _) =>
            let b1 := N_of_ascii c1 in
            let b2 := N_of_ascii c2 in
            let lo := if (b0 =? 0xE0)%N then 0xA0%N else 0x80%N in
            let hi := if (b0 =? 0xED)%N then 0x9F%N else 0xBF%N in
            if byte_in lo hi b1 && byte_in 0x80 0xBF b2 then
              (N.lor (N.shiftl (N.land b0 0x0F) 12)
                 (N.lor (N.shiftl (N.land b1 0x3F) 6) (N.land b2 0x3F)), 3)
            else (RuneError, 1)
        | _ => (RuneError, 1)
        end
      else if byte_in 0xF0 0xF4 b0 then
        match r with
        | String c1 (String c2 (String c3 _)) =>
            let b1 := N_of_ascii c1 in
            let b2 := N_of_ascii c2 in
            let b3 := N_of_ascii c3 in
            let lo := if (b0 =? 0xF0)%N then 0x90%N else 0x80%N in
            let hi := if (b0 =? 0xF4)%N then 0x8F%N else 0xBF%N in
            if byte_in lo hi b1 && byte_in 0x80 0xBF b2 && byte_in 0x80 0xBF b3 then
              (N.lor (N.shiftl (N.land b0 0x07) 18)
                 (N.lor (N.shiftl (N.land b1 0x3F) 12)
                    (N.lor (N.shiftl (N.land b2 0x3F) 6) (N.land b3 0x3F))), 4)
            else (RuneError, 1)
        | _ => (RuneError, 1)
        end
      else (RuneError, 1)
  end.

Definition chr (n : N) : string := String (ascii_of_N n) EmptyString.

(** [utf8.EncodeRune]; a surrogate or a value above U+10FFFF is encoded as
    [RuneError]. *)
Definition EncodeRune (r : N) : string :=
  let r := if byte_in 0xD800 0xDFFF r || (0x10FFFF <? r)%N then RuneError else r in
  if (r <? 0x80)%N then chr r
  else if (r <? 0x800)%N then
    chr (N.lor 0xC0 (N.shiftr r 6)) +:+ chr (N.lor 0x80 (N.land r 0x3F))
  else if (r <? 0x10000)%N then
    chr (N.lor 0xE0 (N.shiftr r 12))
      +:+ chr (N.lor 0x80 (N.land (N.shiftr r 6) 0x3F))
      +:+ chr (N.lor 0x80 (N.land r 0x3F))
  else
    chr (N.lor 0xF0 (N.shiftr r 18))
      +:+ chr (N.lor 0x80 (N.land (N.shiftr r 12) 0x3F))
      +:+ chr (N.lor 0x80 (N.land (N.shiftr r 6) 0x3F))
      +:+ chr (N.lor 0x80 (N.land r 0x3F)).

(** *** Errors *)

(** The error values of the modelled packages: [*json.SyntaxError],
    [*json.UnmarshalTypeError] (the JSON value and the Go type it does not
    fit), [base64.CorruptInputError] (the offset of the offending byte) and
    [*os.PathError] for a failed file operation. *)
Inductive go_error : Type :=
| SyntaxError (msg : string)
| UnmarshalTypeError (value type : string)
| CorruptInputError (offset : N)
| PathError (op path err : string).

(** A natural number in decimal, as [strconv.FormatInt] prints it. *)
Definition itoa (n : N) : string := NilEmpty.string_of_uint (N.to_uint n).

Definition go_Error (e : go_error) : string :=
  match e with
  | SyntaxError msg => msg
  | UnmarshalTypeError value type =>
      "json: cannot unmarshal " +:+ value +:+ " into Go value of type " +:+ type
  | CorruptInputError offset =>
      "illegal base64 data at input byte " +:+ itoa offset
  | PathError op path err => op +:+ " " +:+ path +:+ ": " +:+ err
  end.

(** *** [encoding/base64], [StdEncoding] *)

(** The alphabet: the character of a 6-bit value. *)
Definition encodeStd (v : N) : ascii :=
  ascii_of_N
    (if (v <? 26)%N then 65 + v           (* A-Z *)
     else if (v <? 52)%N then 97 + (v - 26) (* a-z *)
     else if (v <? 62)%N then 48 + (v - 52) (* 0-9 *)
     else if (v =? 62)%N then 43           (* + *)
     else 47)%N.                           (* / *)

(** The decode map: the 6-bit value of a character of the alphabet. *)
Definition decodeMap (c : ascii) : option N :=
  let b := N_of_ascii c in
  if byte_in 65 90 b then Some (b - 65)%N
  else if byte_in 97 122 b then Some (b - 97 + 26)%N
  else if byte_in 48 57 b then Some (b - 48 + 52)%N
  else if (b =? 43)%N then Some 62%N
  else if (b =? 47)%N then Some 63%N
  else None.

(** [EncodeToString]: three bytes give four characters; a final group of
    one or two bytes is padded with [=]. *)
Fixpoint EncodeToString (src : string) : string :=
  match src with
  | String a (String b (String c rest)) =>
      let v := (N_of_ascii a * 65536 + N_of_ascii b * 256 + N_of_ascii c)%N in
      String (encodeStd (N.shiftr v 18))
        (String (encodeStd (N.land (N.shiftr v 12) 63))
           (String (encodeStd (N.land (N.shiftr v 6) 63))
              (String (encodeStd (N.land v 63)) (EncodeToString rest))))
  | String a (String b EmptyString) =>
      let v := (N_of_ascii a * 65536 + N_of_ascii b * 256)%N in
      String (encodeStd (N.shiftr v 18))
        (String (encodeStd (N.land (N.shiftr v 12) 63))
           (String (encodeStd (N.land (N.shiftr v 6) 63)) "="))
  | String a EmptyString =>
      let v := (N_of_ascii a * 65536)%N in
      String (encodeStd (N.shiftr v 18))
        (String (encodeStd (N.land (N.shiftr v 12) 63)) "==")
  | EmptyString => EmptyString
  end.

Definition is_newline (c : ascii) : bool :=
  let b := N_of_ascii c in ((b =? 10) || (b =? 13))%N.
Definition is_pad (c : ascii) : bool := (N_of_ascii c =? 61)%N.

(** The bytes of a quantum of [dlen] characters whose 6-bit values are
    [dbuf] (missing ones are zero): [dlen - 1] bytes. *)
Definition quantum_bytes (dbuf : list N) (dlen : nat) : string :=
  let val := (nth 0 dbuf 0 * 262144 + nth 1 dbuf 0 * 4096
              + nth 2 dbuf 0 * 64 + nth 3 dbuf 0)%N in
  let b0 := chr (N.land (N.shiftr val 16) 255) in
  let b1 := chr (N.land (N.shiftr val 8) 255) in
  let b2 := chr (N.land val 255) in
  match dlen with
  | 4 => b0 +:+ b1 +:+ b2
  | 3 => b0 +:+ b1
  | 2 => b0
  | _ => EmptyString
  end.

(** After the padding of the last quantum only newlines may follow; [si]
    is the offset of the first character of [src]. *)
Fixpoint after_padding (src : string) (si : N) : option go_error :=
  match src with
  | EmptyString => None
  | String c rest =>
      if is_newline c then after_padding rest (si + 1)%N
      else Some (CorruptInputError si)
  end.

(** After the first [=] of a quantum of two characters: newlines, then the
    second [=]; [len] is the length of the whole input. *)
Fixpoint second_pad (src : string) (si len : N) : go_error + string :=
  match src with
  | EmptyString => inl (CorruptInputError len)
  | String c rest =>
      if is_newline c then second_pad rest (si + 1)%N len
      else if is_pad c then inr rest
      else inl (CorruptInputError (si - 1)%N)
  end.

(** The decoding loop: [si] is the offset of the next character, [dbuf]
    the values read so far in the current quantum, [dst] the bytes decoded
    so far.  Carriage returns and line feeds are skipped. *)
Fixpoint decode_loop (src : string) (si len : N) (dbuf : list N) (dst : string)
  : go_error + string :=
  match src with
  | EmptyString =>
      match dbuf with
      | [] => inr dst
      | _ => inl (CorruptInputError (si - N.of_nat (List.length dbuf))%N)
      end
  | String c rest =>
      match decodeMap c with
      | Some v =>
          if decide (List.length dbuf = 3%nat) then
            decode_loop rest (si + 1)%N len []
              (dst +:+ quantum_bytes (dbuf ++ [v]) 4)
          else decode_loop rest (si + 1)%N len (dbuf ++ [v]) dst
      | None =>
          if is_newline c then decode_loop rest (si + 1)%N len dbuf dst
          else if negb (is_pad c) then inl (CorruptInputError si)
          else
            match List.length dbuf with
            | 2%nat =>
                match second_pad rest (si + 1)%N len with
                | inl e => inl e
                | inr rest' =>
                    match after_padding rest' (len - N.of_nat (String.length rest'))%N with
                    | Some e => inl e
                    | None => inr (dst +:+ quantum_bytes dbuf 2)
                    end
                end
            | 3%nat =>
                match after_padding rest (si + 1)%N with
                | Some e => inl e
                | None => inr (dst +:+ quantum_bytes dbuf 3)
                end
            | _ => inl (CorruptInputError si)
            end
      end
  end.

(** [DecodeString] *)
Definition DecodeString (s : string) : go_error + string :=
  decode_loop s 0 (N.of_nat (String.length s)) [] EmptyString.

(** *** [encoding/json], reading *)

Definition DQ : ascii := "034"%char.
Definition BSL : ascii := "092"%char.

Definition is_space (c : ascii) : bool :=
  let b := N_of_ascii c in ((b =? 32) || (b =? 9) || (b =? 13) || (b =? 10))%N.
Definition is_digit (c : ascii) : bool := byte_in 48 57 (N_of_ascii c).
Definition is_hex (c : ascii) : bool :=
  let b := N_of_ascii c in byte_in 48 57 b || byte_in 97 102 b || byte_in 65 70 b.
Definition hex_val (c : ascii) : N :=
  let b := N_of_ascii c in
  if byte_in 48 57 b then (b - 48)%N
  else if byte_in 97 102 b then (b - 97 + 10)%N
  else (b - 65 + 10)%N.
Definition hex4 (a b c d : ascii) : N :=
  (hex_val a * 4096 + hex_val b * 256 + hex_val c * 16 + hex_val d)%N.

(** The character a one-letter escape stands for. *)
Definition unescape (e : ascii) : ascii :=
  if Ascii.eqb e "b" then "008"
  else if Ascii.eqb e "f" then "012"
  else if Ascii.eqb e "n" then "010"
  else if Ascii.eqb e "r" then "013"
  else if Ascii.eqb e "t" then "009"
  else e.

(** [utf16.DecodeRune]: the code point of a surrogate pair, [RuneError]
    when the two are not a high and a low surrogate. *)
Definition utf16_DecodeRune (r1 r2 : N) : N :=
  if byte_in 0xD800 0xDBFF r1 && byte_in 0xDC00 0xDFFF r2 then
    ((r1 - 0xD800) * 1024 + (r2 - 0xDC00) + 0x10000)%N
  else RuneError.

(** The text of a string literal, from what stands between its quotes:
    escapes are replaced, a [\u] surrogate without its partner and every
    byte that is not part of a valid UTF-8 encoding become U+FFFD.
    [copy] counts the bytes of the current rune still to be copied. *)
Fixpoint unquote (s : string) (copy : nat) : string :=
  match s with
  | EmptyString => EmptyString
  | String c r =>
      match copy with
      | S k => String c (unquote r k)
      | O =>
          if Ascii.eqb c BSL then
            match r with
            | String e r1 =>
                if Ascii.eqb e "u" then
                  match r1 with
                  | String h1 (String h2 (String h3 (String h4 r2))) =>
                      let rr := hex4 h1 h2 h3 h4 in
                      if byte_in 0xD800 0xDFFF rr then
                        match r2 with
                        | String b (String u (String g1 (String g2 (String g3 (String g4 r3))))) =>
                            let dec := utf16_DecodeRune rr (hex4 g1 g2 g3 g4) in
                            if Ascii.eqb b BSL && Ascii.eqb u "u"
                               && is_hex g1 && is_hex g2 && is_hex g3 && is_hex g4
                               && negb (dec =? RuneError)%N
                            then EncodeRune dec +:+ unquote r3 0
                            else EncodeRune RuneError +:+ unquote r2 0
                        | _ => EncodeRune RuneError +:+ unquote r2 0
                        end
                      else EncodeRune rr +:+ unquote r2 0
                  | _ => EmptyString
                  end
                else String (unescape e) (unquote r1 0)
            | EmptyString => EmptyString
            end
          else if (N_of_ascii c <? 0x80)%N then String c (unquote r 0)
          else
            match DecodeRune s with
            | (rr, size) =>
                if (rr =? RuneError)%N && Nat.eqb size 1
                then EncodeRune RuneError +:+ unquote r 0
                else String c (unquote r (size - 1))
            end
      end
  end.

Inductive token : Type :=
| TkLBrace | TkRBrace | TkLBrack | TkRBrack | TkColon | TkComma
| TkStr (s : string)
| TkWord (w : string).

(** Where the scanner is inside a string literal. *)
Inductive escape_state : Type :=
| ENone
| EBackslash
| EHex (remaining : nat).

Inductive lex_state : Type :=
| LIdle
| LWord (w : string)
| LStr (raw : string) (esc : escape_state).

Definition flush (st : lex_state) (acc : list token) : list token :=
  match st with
  | LWord w => acc ++ [TkWord w]
  | _ => acc
  end.

Definition punct (c : ascii) : option token :=
  if Ascii.eqb c "{" then Some TkLBrace
  else if Ascii.eqb c "}" then Some TkRBrace
  else if Ascii.eqb c "[" then Some TkLBrack
  else if Ascii.eqb c "]" then Some TkRBrack
  else if Ascii.eqb c ":" then Some TkColon
  else if Ascii.eqb c "," then Some TkComma
  else None.

(** The scanner, one byte at a time.  A string literal may not hold a raw
    control character and a backslash must start one of the escapes of
    JSON; a word is a maximal run of other characters, checked when the
    value is built. *)
Fixpoint lex (s : string) (st : lex_state) (acc : list token) : option (list token) :=
  match s with
  | EmptyString =>
      match st with
      | LStr _ _ => None
      | _ => Some (flush st acc)
      end
  | String c r =>
      match st with
      | LStr raw ENone =>
          if Ascii.eqb c DQ then lex r LIdle (acc ++ [TkStr (unquote raw 0)])
          else if Ascii.eqb c BSL then lex r (LStr (raw +:+ String c EmptyString) EBackslash) acc
          else if (N_of_ascii c <? 0x20)%N then None
          else lex r (LStr (raw +:+ String c EmptyString) ENone) acc
      | LStr raw EBackslash =>
          if Ascii.eqb c "u" then lex r (LStr (raw +:+ String c EmptyString) (EHex 4)) acc
          else if Ascii.eqb c DQ || Ascii.eqb c BSL || Ascii.eqb c "/"
                  || Ascii.eqb c "b" || Ascii.eqb c "f" || Ascii.eqb c "n"
                  || Ascii.eqb c "r" || Ascii.eqb c "t"
          then lex r (LStr (raw +:+ String c EmptyString) ENone) acc
          else None
      | LStr raw (EHex n) =>
          if is_hex c then
            lex r (LStr (raw +:+ String c EmptyString)
                     (match n with
                      | S (S k) => EHex (S k)
                      | _ => ENone
                      end)) acc
          else None
      | _ =>
          if is_space c then lex r LIdle (flush st acc)
          else if Ascii.eqb c DQ then lex r (LStr EmptyString ENone) (flush st acc)
          else
            match punct c with
            | Some t => lex r LIdle (flush st acc ++ [t])
            | None =>
                lex r (LWord (match st with
                              | LWord w => w +:+ String c EmptyString
                              | _ => String c EmptyString
                              end)) acc
            end
      end
  end.

(** The leading digits of [s] and what follows them. *)
Fixpoint span_digits (s : string) : string * string :=
  match s with
  | String c r =>
      if is_digit c then
        let (ds, rest) := span_digits r in (String c ds, rest)
      else (EmptyString, s)
  | EmptyString => (EmptyString, EmptyString)
  end.

(** A numeric literal in parts: sign, integer digits, fraction digits and
    exponent, where the literal has them. *)
Record number : Type := mkNumber {
  negative : bool;
  int_digits : string;
  frac_digits : option string;
  exponent : option (bool * string)
}.

Definition parse_exponent (s : string) : option (option (bool * string)) :=
  match s with
  | EmptyString => Some None
  | String e r =>
      if Ascii.eqb e "e" || Ascii.eqb e "E" then
        let (neg, r1) :=
          match r with
          | String sg r' =>
              if Ascii.eqb sg "-" then (true, r')
              else if Ascii.eqb sg "+" then (false, r')
              else (false, r)
          | EmptyString => (false, r)
          end in
        match span_digits r1 with
        | (EmptyString, _) => None
        | (ds, EmptyString) => Some (Some (neg, ds))
        | _ => None
        end
      else None
  end.

Definition parse_fraction (s : string)
  : option (option string * option (bool * string)) :=
  match s with
  | String d r =>
      if Ascii.eqb d "." then
        match span_digits r with
        | (EmptyString, _) => None
        | (fs, rest) =>
            match parse_exponent rest with
            | Some ex => Some (Some fs, ex)
            | None => None
            end
        end
      else
        match parse_exponent s with
        | Some ex => Some (None, ex)
        | None => None
        end
  | EmptyString => Some (None, None)
  end.

(** The grammar of a JSON number: an optional minus, [0] or a digit from 1
    to 9 followed by digits, an optional fraction, an optional exponent. *)
Definition parse_number (w : string) : option number :=
  let (neg, s) :=
    match w with
    | String c r => if Ascii.eqb c "-" then (true, r) else (false, w)
    | EmptyString => (false, w)
    end in
  match span_digits s with
  | (EmptyString, _) => None
  | (String d ds as int, rest) =>
      if Ascii.eqb d "0" && negb (String.eqb ds EmptyString) then None
      else
        match parse_fraction rest with
        | Some (fr, ex) => Some (mkNumber neg int fr ex)
        | None => None
        end
  end.

(** The syntax tree of a document; the members of an object in the order
    they are written, with their repetitions. *)
Inductive jtree : Type :=
| TNull
| TBool (b : bool)
| TNum (lit : string)
| TStr (s : string)
| TArr (elems : list jtree)
| TObj (members : list (string * jtree)).

(** A container under construction: the elements read so far, last first;
    for an object also the key whose value is awaited. *)
Inductive ctx : Type :=
| CArr (done : list jtree)
| CObj (done : list (string * jtree)) (key : option string).

(** What may come next. *)
Inductive mode : Type :=
| MValue                (* a value *)
| MFirst                (* a value or the end of the array *)
| MKeyFirst             (* a key or the end of the object *)
| MKey                  (* a key *)
| MColon                (* the colon after a key *)
| MNext                 (* a comma or the end of the container *)
| MEnd (v : jtree).     (* nothing: the document is complete *)

Definition push_value (v : jtree) (stack : list ctx) : option (mode * list ctx) :=
  match stack with
  | [] => Some (MEnd v, [])
  | CArr done :: st => Some (MNext, CArr (v :: done) :: st)
  | CObj done (Some k) :: st => Some (MNext, CObj ((k, v) :: done) None :: st)
  | CObj _ None :: _ => None
  end.

Definition word_value (w : string) : option jtree :=
  if String.eqb w "true" then Some (TBool true)
  else if String.eqb w "false" then Some (TBool false)
  else if String.eqb w "null" then Some TNull
  else match parse_number w with
       | Some _ => Some (TNum w)
       | None => None
       end.

Definition parse_step (t : token) (m : mode) (stack : list ctx)
  : option (mode * list ctx) :=
  match m with
  | MValue | MFirst =>
      match t with
      | TkStr s => push_value (TStr s) stack
      | TkWord w =>
          match word_value w with
          | Some v => push_value v stack
          | None => None
          end
      | TkLBrack => Some (MFirst, CArr [] :: stack)
      | TkLBrace => Some (MKeyFirst, CObj [] None :: stack)
      | TkRBrack =>
          match m, stack with
          | MFirst, CArr [] :: st => push_value (TArr []) st
          | _, _ => None
          end
      | _ => None
      end
  | MKeyFirst | MKey =>
      match t, stack with
      | TkStr k, CObj done None :: st => Some (MColon, CObj done (Some k) :: st)
      | TkRBrace, CObj [] None :: st =>
          match m with
          | MKeyFirst => push_value (TObj []) st
          | _ => None
          end
      | _, _ => None
      end
  | MColon =>
      match t with
      | TkColon => Some (MValue, stack)
      | _ => None
      end
  | MNext =>
      match t, stack with
      | TkComma, CArr _ :: _ => Some (MValue, stack)
      | TkComma, CObj _ None :: _ => Some (MKey, stack)
      | TkRBrack, CArr done :: st => push_value (TArr (rev done)) st
      | TkRBrace, CObj done None :: st => push_value (TObj (rev done)) st
      | _, _ => None
      end
  | MEnd _ => None
  end.

Fixpoint parse_tokens (ts : list token) (m : mode) (stack : list ctx) : option jtree :=
  match ts with
  | [] =>
      match m with
      | MEnd v => Some v
      | _ => None
      end
  | t :: ts' =>
      match parse_step t m stack with
      | Some (m', stack') => parse_tokens ts' m' stack'
      | None => None
      end
  end.

(** The document [data] holds, if it is one JSON value surrounded by
    nothing but white space. *)
Definition parse (data : string) : option jtree :=
  match lex data LIdle [] with
  | Some ts => parse_tokens ts MValue []
  | None => None
  end.

(** *** [encoding/json], decoding into Go values *)

Fixpoint digits_value (ds : string) (acc : N) : N :=
  match ds with
  | String c r => digits_value r (acc * 10 + (N_of_ascii c - 48))%N
  | EmptyString => acc
  end.

(** A literal [m * 10^e] has no [float64] when it rounds to infinity,
    that is from [2^1024 - 2^970] on. *)
Definition float64_overflow (n : number) : bool :=
  let frac := default EmptyString (frac_digits n) in
  let m := Z.of_N (digits_value (int_digits n +:+ frac) 0) in
  let ex := match exponent n with
            | Some (neg, ds) =>
                let v := Z.of_N (digits_value ds 0) in if neg then (- v)%Z else v
            | None => 0%Z
            end in
  let e := (ex - Z.of_nat (String.length frac))%Z in
  let limit := (2 ^ 1024 - 2 ^ 970)%Z in
  if (0 <=? e)%Z then (limit <=? m * 10 ^ e)%Z
  else (limit * 10 ^ (- e) <=? m)%Z.

(** The value of a literal as a Go [int] of 64 bits, as [strconv.ParseInt]
    reads it: digits only, within range. *)
Definition int64_value (n : number) : option Z :=
  match frac_digits n, exponent n with
  | None, None =>
      let v := Z.of_N (digits_value (int_digits n) 0) in
      let v := if negative n then (- v)%Z else v in
      if ((- 2 ^ 63 <=? v) && (v <? 2 ^ 63))%Z then Some v else None
  | _, _ => None
  end.

Definition number_error (lit type : string) : go_error :=
  UnmarshalTypeError ("number " +:+ lit) type.

(** A document decoded into an [interface{}].  Of the members of an object
    with the same key the last one stays. *)
Fixpoint to_json (t : jtree) : go_error + json :=
  match t with
  | TNull => inr JNull
  | TBool b => inr (JBool b)
  | TNum lit =>
      match parse_number lit with
      | Some n =>
          if float64_overflow n then inl (number_error lit "float64")
          else inr (JNum lit)
      | None => inl (SyntaxError "invalid number literal")
      end
  | TStr s => inr (JStr s)
  | TArr elems =>
      match
        (fix go (l : list jtree) : go_error + list json :=
           match l with
           | [] => inr []
           | x :: l' =>
               match to_json x with
               | inl e => inl e
               | inr v =>
                   match go l' with
                   | inl e => inl e
                   | inr vs => inr (v :: vs)
                   end
               end
           end) elems
      with
      | inl e => inl e
      | inr vs => inr (JArr vs)
      end
  | TObj members =>
      match
        (fix go (l : list (string * jtree)) (acc : gmap string json)
           : go_error + gmap string json :=
           match l with
           | [] => inr acc
           | (k, x) :: l' =>
               match to_json x with
               | inl e => inl e
               | inr v => go l' (<[k := v]> acc)
               end
           end) members ∅
      with
      | inl e => inl e
      | inr m => inr (JObj m)
      end
  end.

(** The members of an object stored into an existing
    [map[string]interface{}], whose other entries stay. *)
Fixpoint store_members (l : list (string * jtree)) (acc : gmap string json)
  : go_error + gmap string json :=
  match l with
  | [] => inr acc
  | (k, x) :: l' =>
      match to_json x with
      | inl e => inl e
      | inr v => store_members l' (<[k := v]> acc)
      end
  end.

Definition kind (t : jtree) : string :=
  match t with
  | TNull => "null"
  | TBool _ => "bool"
  | TNum lit => "number " +:+ lit
  | TStr _ => "string"
  | TArr _ => "array"
  | TObj _ => "object"
  end.

Definition syntax_error : go_error :=
  SyntaxError "invalid character or unexpected end of JSON input".

(** [json.Unmarshal(data, &input)] for [input] the empty
    [map[string]interface{}].  The document [null] leaves the map as it
    is. *)
Definition Unmarshal_map (data : string) : go_error + gmap string json :=
  match parse data with
  | None => inl syntax_error
  | Some TNull => inr ∅
  | Some (TObj members) => store_members members ∅
  | Some t => inl (UnmarshalTypeError (kind t) "map[string]interface {}")
  end.

Definition to_upper (c : ascii) : N :=
  let b := N_of_ascii c in if byte_in 97 122 b then (b - 32)%N else b.

(** Whether the key of an object names the struct field [field]: without
    regard to case, where the long s (U+017F) is a form of [s] and the
    Kelvin sign (U+212A) a form of [k]. *)
Fixpoint fold_eq (field key : string) : bool :=
  match field, key with
  | EmptyString, EmptyString => true
  | String f fr, String k kr =>
      if (N_of_ascii k <? 0x80)%N then (to_upper f =? to_upper k)%N && fold_eq fr kr
      else if (to_upper f =? 83)%N then
        match key with
        | String "197" (String "191" kr') => fold_eq fr kr'
        | _ => false
        end
      else if (to_upper f =? 75)%N then
        match key with
        | String "226" (String "132" (String "170" kr')) => fold_eq fr kr'
        | _ => false
        end
      else false
  | _, _ => false
  end.

(** One member of an object stored into a [ResponseMessage], whose fields
    are tagged [int] and [message]. *)
Definition store_message_field (msg : ResponseMessage) (kv : string * jtree)
  : go_error + ResponseMessage :=
  let (k, v) := kv in
  if fold_eq "int" k then
    match v with
    | TNull => inr msg
    | TNum lit =>
        match parse_number lit ≫= int64_value with
        | Some n => inr (mkResponseMessage n (Message msg))
        | None => inl (number_error lit "int")
        end
    | _ => inl (UnmarshalTypeError (kind v) "int")
    end
  else if fold_eq "message" k then
    match v with
    | TNull => inr msg
    | TStr s => inr (mkResponseMessage (Code msg) s)
    | _ => inl (UnmarshalTypeError (kind v) "string")
    end
  else inr msg.

(** A left fold that stops at the first error. *)
Fixpoint fold_err {A B : Type} (f : A → B → go_error + A) (l : list B) (a : A)
  : go_error + A :=
  match l with
  | [] => inr a
  | x :: l' =>
      match f a x with
      | inl e => inl e
      | inr a' => fold_err f l' a'
      end
  end.

Definition to_message (t : jtree) : go_error + ResponseMessage :=
  match t with
  | TNull => inr (mkResponseMessage 0 EmptyString)
  | TObj members =>
      fold_err store_message_field members (mkResponseMessage 0 EmptyString)
  | _ => inl (UnmarshalTypeError (kind t) "main.ResponseMessage")
  end.

(** A slice of messages: the array is decoded into a slice reset to
    length zero, [null] gives the nil slice. *)
Definition to_messages (t : jtree) : go_error + list ResponseMessage :=
  match t with
  | TNull => inr []
  | TArr elems =>
      fold_err (λ acc x,
                 match to_message x with
                 | inl e => inl e
                 | inr msg => inr (acc ++ [msg])
                 end) elems []
  | _ => inl (UnmarshalTypeError (kind t) "[]main.ResponseMessage")
  end.

(** One member of the envelope stored into a [Response]; a key that names
    no field is skipped. *)
Definition store_response_field (r : Response) (kv : string * jtree)
  : go_error + Response :=
  let (k, v) := kv in
  if fold_eq "success" k then
    match v with
    | TNull => inr r
    | TBool b => inr (mkResponse b (Result r) (Errors r) (Messages r))
    | _ => inl (UnmarshalTypeError (kind v) "bool")
    end
  else if fold_eq "result" k then
    match v with
    | TNull => inr (mkResponse (Success r) ∅ (Errors r) (Messages r))
    | TObj members =>
        match store_members members (Result r) with
        | inl e => inl e
        | inr m => inr (mkResponse (Success r) m (Errors r) (Messages r))
        end
    | _ => inl (UnmarshalTypeError (kind v) "map[string]interface {}")
    end
  else if fold_eq "errors" k then
    match to_messages v with
    | inl e => inl e
    | inr l => inr (mkResponse (Success r) (Result r) l (Messages r))
    end
  else if fold_eq "messages" k then
    match to_messages v with
    | inl e => inl e
    | inr l => inr (mkResponse (Success r) (Result r) (Errors r) l)
    end
  else inr r.

(** [json.Unmarshal(data, &response)] for a zero [Response]. *)
Definition Unmarshal_Response (data : string) : go_error + Response :=
  let zero := mkResponse false ∅ [] [] in
  match parse data with
  | None => inl syntax_error
  | Some TNull => inr zero
  | Some (TObj members) => fold_err store_response_field members zero
  | Some t => inl (UnmarshalTypeError (kind t) "main.Response")
  end.

(** *** [encoding/json], writing a [map[string]string] *)

Definition hex_digit (n : N) : string :=
  chr (if (n <? 10)%N then 48 + n else 97 + (n - 10))%N.

(** Bytes written as they are: the printable ASCII characters and DEL,
    without the quote, the backslash and the three characters escaped for
    HTML. *)
Definition html_safe (b : N) : bool :=
  (32 <=? b)%N && negb ((b =? 34) || (b =? 92) || (b =? 38) || (b =? 60) || (b =? 62))%N.

Definition escape_byte (b : N) : string :=
  if ((b =? 34) || (b =? 92))%N then String BSL (chr b)
  else if (b =? 10)%N then String BSL "n"
  else if (b =? 13)%N then String BSL "r"
  else if (b =? 9)%N then String BSL "t"
  else String BSL "u00" +:+ hex_digit (N.shiftr b 4) +:+ hex_digit (N.land b 15).

(** The inside of a string literal.  [skip] counts the bytes of the
    current rune still to pass over; they are written when [keep] holds.
    A byte outside any valid encoding is written as the escape of
    U+FFFD, the line and paragraph separators as the escapes of U+2028 and
    U+2029. *)
Fixpoint quote_body (s : string) (skip : nat) (keep : bool) : string :=
  match s with
  | EmptyString => EmptyString
  | String c r =>
      match skip with
      | S k =>
          if keep then String c (quote_body r k keep) else quote_body r k keep
      | O =>
          let b := N_of_ascii c in
          if (b <? 0x80)%N then
            (if html_safe b then String c EmptyString else escape_byte b)
              +:+ quote_body r 0 true
          else
            match DecodeRune s with
            | (rr, size) =>
                if (rr =? RuneError)%N && Nat.eqb size 1 then
                  String BSL "ufffd" +:+ quote_body r 0 true
                else if ((rr =? 0x2028) || (rr =? 0x2029))%N then
                  String BSL "u202" +:+ hex_digit (N.land rr 15)
                    +:+ quote_body r (size - 1) false
                else String c (quote_body r (size - 1) true)
            end
      end
  end.

Definition quote (s : string) : string :=
  String DQ (quote_body s 0 true) +:+ String DQ EmptyString.

(** The entries of a map by increasing key, bytewise. *)
Fixpoint insert_sorted (kv : string * string) (l : list (string * string))
  : list (string * string) :=
  match l with
  | [] => [kv]
  | kv' :: l' =>
      if String.leb (fst kv) (fst kv') then kv :: l
      else kv' :: insert_sorted kv l'
  end.
Definition sorted_entries (m : gmap string string) : list (string * string) :=
  foldr insert_sorted [] (map_to_list m).

Fixpoint join (sep : string) (l : list string) : string :=
  match l with
  | [] => EmptyString
  | [x] => x
  | x :: l' => x +:+ sep +:+ join sep l'
  end.

(** [json.Marshal] of a non-nil [map[string]string]: an object with the
    keys in sorted order.  It has no error. *)
Definition Marshal (m : gmap string string) : go_error + string :=
  inr ("{" +:+ join "," (map (λ kv, quote (fst kv) +:+ ":" +:+ quote (snd kv))
                           (sorted_entries m)) +:+ "}").

(** The verb [%v] on a [map[string]string]. *)
Definition Sprint_map (m : gmap string string) : string :=
  "map[" +:+ join " " (map (λ kv, fst kv +:+ ":" +:+ snd kv) (sorted_entries m))
    +:+ "]".

(** The library, over a file system that fails a write as [write_err]
    says. *)
Definition lib (write_err : string → string → FileMode → World → option go_error)
  : GoLib :=
  {| GoError := go_error;
     Error := go_Error;
     json_Unmarshal_map := Unmarshal_map;
     json_Unmarshal_Response := Unmarshal_Response;
     json_Marshal := Marshal;
     fmt_map := Sprint_map;
     base64_DecodeString := DecodeString;
     base64_EncodeToString := EncodeToString;
     WriteFile_err := write_err |}.

(** A file system on which every write succeeds. *)
Definition writable : string → string → FileMode → World → option go_error :=
  λ _ _ _ _, None.

(** The surroundings of [main]: the version text, what standard input
    yields and what reading each file yields. *)
Definition os (write_err : string → string → FileMode → World → option go_error)
    (version : string) (stdin : go_error + string)
    (read : string → go_error + string) : @GoOS (lib write_err) :=
  @mkGoOS (lib write_err) version stdin read.

(** JSON text written with apostrophes for its quotation marks. *)
Fixpoint js (s : string) : string :=
  match s with
  | EmptyString => EmptyString
  | String c r => String (if Ascii.eqb c "'" then DQ else c) (js r)
  end.

End GoModel.

(** * Properties *)

(** ** Strings *)

Lemma append_cons (c : ascii) (a b : string) :
  String c a +:+ b = String c (a +:+ b).
Proof. reflexivity. Qed.

Lemma append_nil_r (s : string) : s +:+ EmptyString = s.
Proof.
  induction s as [|c s IH]; [reflexivity|].
  by rewrite append_cons, IH.
Qed.

Lemma append_assoc (a b c : string) : (a +:+ b) +:+ c = a +:+ (b +:+ c).
Proof.
  induction a as [|x a IH]; [reflexivity|].
  by rewrite !append_cons, IH.
Qed.

(** Two names made from one base name are the same only if their
    suffixes are. *)
Lemma suffix_differs (base x y : string) : x ≠ y → base +:+ x ≠ base +:+ y.
Proof. intros Hxy Heq. apply Hxy. by apply (inj (String.append base)). Qed.

(** ** Running a computation *)

Section Properties.
Context {L : GoLib}.

Lemma bind_run {A B : Type} (m : M A) (f : A → M B) (w : World) :
  (m ≫= f) w = match m w with
               | (w', inr a) => f a w'
               | (w', inl h) => (w', inl h)
               end.
Proof. reflexivity. Qed.

Lemma ret_run {A : Type} (x : A) (w : World) : (mret x : M A) w = (w, inr x).
Proof. reflexivity. Qed.

Lemma writeErrorAndExit_run {A : Type} (text : string) (w : World) :
  writeErrorAndExit (A := A) text w = (to_stderr text w, inl (Exit 1)).
Proof. reflexivity. Qed.

(** ** The field steps, one by one *)

(** A step that looks a field up under two names. *)
Ltac aliased_step input name alias :=
  unfold consulted, text_artifact; rewrite bind_run;
  destruct (input !! name) as [[]|];
  [ | | | | | | destruct (input !! alias) as [[]|] ];
  try reflexivity;
  unfold assert_string; rewrite ret_run;
  match goal with
  | |- context [decide (?s ≠ EmptyString)] =>
      destruct (decide (s ≠ EmptyString));
      [ done | by rewrite ?app_nil_r ]
  end.

Lemma cert_step_run baseName input outs w :
  cert_step baseName input outs w =
  match consulted input "cert" "certificate" with
  | Some (JStr s) =>
      (w, inr (outs ++ text_artifact (Some (JStr s)) (baseName +:+ ".pem") (oct 6 6 4)))
  | Some v => (w, inl (Panic (TypeAssertionError v)))
  | None => (w, inr outs)
  end.
Proof. unfold cert_step. aliased_step input "cert" "certificate". Qed.

Lemma key_step_run baseName input outs w :
  key_step baseName input outs w =
  match consulted input "key" "private_key" with
  | Some (JStr s) =>
      (w, inr (outs ++ text_artifact (Some (JStr s)) (baseName +:+ "-key.pem") (oct 6 0 0)))
  | Some v => (w, inl (Panic (TypeAssertionError v)))
  | None => (w, inr outs)
  end.
Proof. unfold key_step. aliased_step input "key" "private_key". Qed.

Lemma csr_step_run baseName input outs w :
  csr_step baseName input outs w =
  match consulted input "csr" "certificate_request" with
  | Some (JStr s) =>
      (w, inr (outs ++ text_artifact (Some (JStr s)) (baseName +:+ ".csr") (oct 6 4 4)))
  | Some v => (w, inl (Panic (TypeAssertionError v)))
  | None => (w, inr outs)
  end.
Proof. unfold csr_step. aliased_step input "csr" "certificate_request". Qed.

Lemma encrypted_key_step_run baseName input outs w :
  encrypted_key_step baseName input outs w =
  match input !! "encrypted_key" with
  | Some (JStr s) =>
      (w, inr (outs ++ [mkOutputFile (baseName +:+ "-key.enc") s true (oct 6 0 0)]))
  | Some v => (w, inl (Panic (TypeAssertionError v)))
  | None => (w, inr outs)
  end.
Proof. unfold encrypted_key_step. by destruct (input !! "encrypted_key") as [[]|]. Qed.

Lemma bundle_step_run baseName input outs w :
  bundle_step baseName input outs w =
  match inner_bundle input with
  | Some bundle =>
      match bundle !! "bundle" with
      | Some (JStr chain) =>
          match bundle !! "root" with
          | Some (JStr root) =>
              (w, inr (outs ++
                [mkOutputFile (baseName +:+ "-bundle.pem") (chain +:+ LF +:+ root)
                   false (oct 6 4 4);
                 mkOutputFile (baseName +:+ "-root.pem") root false (oct 6 4 4)]))
          | _ => (to_stderr ("root parsing failed!" +:+ LF) w, inl (Exit 1))
          end
      | _ => (to_stderr ("inner bundle parsing failed!" +:+ LF) w, inl (Exit 1))
      end
  | None => (w, inr outs)
  end.
Proof.
  unfold bundle_step, inner_bundle.
  destruct (input !! "result") as [[| | | | |result]|]; try reflexivity.
  destruct (result !! "bundle") as [[| | | | |bundle]|]; try reflexivity.
  rewrite bind_run.
  destruct (bundle !! "bundle") as [[]|]; try reflexivity.
  rewrite ret_run, bind_run.
  by destruct (bundle !! "root") as [[]|].
Qed.

Lemma ocsp_step_run baseName input outs w :
  ocsp_step baseName input outs w =
  match input !! "ocspResponse" with
  | Some (JStr s) =>
      match base64_DecodeString s with
      | inl err =>
          (to_stderr ("Failed to parse ocspResponse: " +:+ Error err +:+ LF) w,
           inl (Exit 1))
      | inr resp =>
          (w, inr (outs ++
             [mkOutputFile (baseName +:+ "-response.der") resp true (oct 6 4 4)]))
      end
  | Some v => (w, inl (Panic (TypeAssertionError v)))
  | None => (w, inr outs)
  end.
Proof.
  unfold ocsp_step.
  destruct (input !! "ocspResponse") as [[]|]; try reflexivity.
  rewrite bind_run. unfold assert_string. rewrite ret_run.
  by destruct (base64_DecodeString s).
Qed.

(** A step whose condition holds appends its artifacts and leaves the
    world as it is. *)
Lemma cert_step_ok baseName input outs w :
  cert_ok input →
  cert_step baseName input outs w =
  (w, inr (outs ++ text_artifact (consulted input "cert" "certificate")
                     (baseName +:+ ".pem") (oct 6 6 4))).
Proof.
  intros Hok. rewrite cert_step_run. unfold cert_ok in Hok.
  destruct (consulted input "cert" "certificate") as [[]|];
    try done; simpl; by rewrite app_nil_r.
Qed.

Lemma key_step_ok baseName input outs w :
  key_ok input →
  key_step baseName input outs w =
  (w, inr (outs ++ text_artifact (consulted input "key" "private_key")
                     (baseName +:+ "-key.pem") (oct 6 0 0))).
Proof.
  intros Hok. rewrite key_step_run. unfold key_ok in Hok.
  destruct (consulted input "key" "private_key") as [[]|];
    try done; simpl; by rewrite app_nil_r.
Qed.

Lemma encrypted_key_step_ok baseName input outs w :
  encrypted_key_ok input →
  encrypted_key_step baseName input outs w =
  (w, inr (outs ++ encrypted_key_artifact baseName input)).
Proof.
  intros Hok. rewrite encrypted_key_step_run.
  unfold encrypted_key_ok in Hok. unfold encrypted_key_artifact.
  destruct (input !! "encrypted_key") as [[]|];
    try done; simpl; by rewrite app_nil_r.
Qed.

Lemma csr_step_ok baseName input outs w :
  csr_ok input →
  csr_step baseName input outs w =
  (w, inr (outs ++ text_artifact (consulted input "csr" "certificate_request")
                     (baseName +:+ ".csr") (oct 6 4 4))).
Proof.
  intros Hok. rewrite csr_step_run. unfold csr_ok in Hok.
  destruct (consulted input "csr" "certificate_request") as [[]|];
    try done; simpl; by rewrite app_nil_r.
Qed.

Lemma bundle_step_ok baseName input outs w :
  bundle_ok input →
  bundle_step baseName input outs w =
  (w, inr (outs ++ bundle_artifacts baseName input)).
Proof.
  intros Hok. rewrite bundle_step_run.
  unfold bundle_ok in Hok. unfold bundle_artifacts.
  destruct (inner_bundle input) as [bundle|]; [|by rewrite app_nil_r].
  destruct Hok as [Hchain Hroot].
  destruct (bundle !! "bundle") as [[]|]; try done.
  by destruct (bundle !! "root") as [[]|].
Qed.

Lemma ocsp_step_ok baseName input outs w :
  ocsp_ok input →
  ocsp_step baseName input outs w =
  (w, inr (outs ++ ocsp_artifact baseName input)).
Proof.
  intros Hok. rewrite ocsp_step_run.
  unfold ocsp_ok in Hok. unfold ocsp_artifact.
  destruct (input !! "ocspResponse") as [[]|];
    try done; [|by rewrite app_nil_r].
  by destruct (base64_DecodeString s).
Qed.

Lemma artifacts_split baseName input :
  artifacts baseName input =
  field_artifacts baseName input
  ++ bundle_artifacts baseName input ++ ocsp_artifact baseName input.
Proof. unfold artifacts, field_artifacts. by rewrite <- !app_assoc. Qed.

(** With the four fields well typed, [extract] is its last two steps run
    on what the first four appended. *)
Lemma extract_fields_ok baseName input w :
  cert_ok input → key_ok input → encrypted_key_ok input → csr_ok input →
  extract baseName input w =
  (outs ← bundle_step baseName input (field_artifacts baseName input);
   ocsp_step baseName input outs) w.
Proof.
  intros Hcert Hkey Henc Hcsr. unfold extract, field_artifacts.
  rewrite bind_run, cert_step_ok by done. cbv beta iota.
  rewrite bind_run, key_step_ok by done. cbv beta iota.
  rewrite bind_run, encrypted_key_step_ok by done. cbv beta iota.
  rewrite bind_run, csr_step_ok by done. cbv beta iota.
  by rewrite !app_nil_l, <- !app_assoc.
Qed.

(** When no step stops, [extract] returns [artifacts] in the world it
    started in. *)
Lemma extract_ok baseName input w :
  cert_ok input → key_ok input → encrypted_key_ok input → csr_ok input →
  bundle_ok input → ocsp_ok input →
  extract baseName input w = (w, inr (artifacts baseName input)).
Proof.
  intros Hcert Hkey Henc Hcsr Hbundle Hocsp.
  rewrite extract_fields_ok by done.
  rewrite bind_run, bundle_step_ok by done. cbv beta iota.
  rewrite ocsp_step_ok by done.
  by rewrite artifacts_split, <- !app_assoc.
Qed.

(** ** What stops [extract] *)

(** A step either has its condition or stops the process where it
    stands. *)
Lemma cert_step_cases baseName input :
  cert_ok input ∨
  ∃ v, ∀ outs w,
    cert_step baseName input outs w = (w, inl (Panic (TypeAssertionError v))).
Proof.
  unfold cert_ok.
  destruct (consulted input "cert" "certificate") as [v|] eqn:E; [|by left].
  destruct v; try (by left);
    right; eexists; intros outs w; rewrite cert_step_run, E; reflexivity.
Qed.

Lemma key_step_cases baseName input :
  key_ok input ∨
  ∃ v, ∀ outs w,
    key_step baseName input outs w = (w, inl (Panic (TypeAssertionError v))).
Proof.
  unfold key_ok.
  destruct (consulted input "key" "private_key") as [v|] eqn:E; [|by left].
  destruct v; try (by left);
    right; eexists; intros outs w; rewrite key_step_run, E; reflexivity.
Qed.

Lemma encrypted_key_step_cases baseName input :
  encrypted_key_ok input ∨
  ∃ v, ∀ outs w,
    encrypted_key_step baseName input outs w
    = (w, inl (Panic (TypeAssertionError v))).
Proof.
  unfold encrypted_key_ok.
  destruct (input !! "encrypted_key") as [v|] eqn:E; [|by left].
  destruct v; try (by left);
    right; eexists; intros outs w; rewrite encrypted_key_step_run, E; reflexivity.
Qed.

Lemma csr_step_cases baseName input :
  csr_ok input ∨
  ∃ v, ∀ outs w,
    csr_step baseName input outs w = (w, inl (Panic (TypeAssertionError v))).
Proof.
  unfold csr_ok.
  destruct (consulted input "csr" "certificate_request") as [v|] eqn:E; [|by left].
  destruct v; try (by left);
    right; eexists; intros outs w; rewrite csr_step_run, E; reflexivity.
Qed.

Lemma bundle_step_cases baseName input :
  bundle_ok input ∨
  ∃ text, ∀ outs w,
    bundle_step baseName input outs w = (to_stderr text w, inl (Exit 1)).
Proof.
  unfold bundle_ok.
  destruct (inner_bundle input) as [bundle|] eqn:E; [|by left].
  destruct (bundle !! "bundle") as [chain|] eqn:Ec.
  2: { right. eexists. intros. by rewrite bundle_step_run, E, Ec. }
  destruct chain;
    try (right; eexists; intros; by rewrite bundle_step_run, E, Ec).
  destruct (bundle !! "root") as [root|] eqn:Er.
  2: { right. eexists. intros. by rewrite bundle_step_run, E, Ec, Er. }
  destruct root;
    try (right; eexists; intros; by rewrite bundle_step_run, E, Ec, Er).
  by left.
Qed.

Lemma ocsp_step_cases baseName input :
  ocsp_ok input ∨
  (∃ v, ∀ outs w,
     ocsp_step baseName input outs w = (w, inl (Panic (TypeAssertionError v))))
  ∨ ∃ text, ∀ outs w,
      ocsp_step baseName input outs w = (to_stderr text w, inl (Exit 1)).
Proof.
  unfold ocsp_ok.
  destruct (input !! "ocspResponse") as [v|] eqn:E; [|by left].
  destruct v;
    try (right; left; eexists; intros; by rewrite ocsp_step_run, E).
  destruct (base64_DecodeString s) eqn:Ed; [|by left].
  right; right. eexists. intros. by rewrite ocsp_step_run, E, Ed.
Qed.

(** How [extract] ends: with [artifacts], every condition holding and the
    world untouched; with a failed type assertion and the world untouched;
    or with exit status 1 after a message on the diagnostic stream. *)
Lemma extract_cases baseName input :
  (cert_ok input ∧ key_ok input ∧ encrypted_key_ok input ∧ csr_ok input
   ∧ bundle_ok input ∧ ocsp_ok input
   ∧ ∀ w, extract baseName input w = (w, inr (artifacts baseName input)))
  ∨ (∃ v, ∀ w, extract baseName input w = (w, inl (Panic (TypeAssertionError v))))
  ∨ (∃ text, ∀ w, extract baseName input w = (to_stderr text w, inl (Exit 1))).
Proof.
  destruct (cert_step_cases baseName input) as [Hcert|[v Hv]].
  2: { right; left. exists v. intros w. unfold extract. by rewrite bind_run, Hv. }
  destruct (key_step_cases baseName input) as [Hkey|[v Hv]].
  2: { right; left. exists v. intros w. unfold extract.
       rewrite bind_run, cert_step_ok by done. cbv beta iota.
       by rewrite bind_run, Hv. }
  destruct (encrypted_key_step_cases baseName input) as [Henc|[v Hv]].
  2: { right; left. exists v. intros w. unfold extract.
       rewrite bind_run, cert_step_ok by done. cbv beta iota.
       rewrite bind_run, key_step_ok by done. cbv beta iota.
       by rewrite bind_run, Hv. }
  destruct (csr_step_cases baseName input) as [Hcsr|[v Hv]].
  2: { right; left. exists v. intros w. unfold extract.
       rewrite bind_run, cert_step_ok by done. cbv beta iota.
       rewrite bind_run, key_step_ok by done. cbv beta iota.
       rewrite bind_run, encrypted_key_step_ok by done. cbv beta iota.
       by rewrite bind_run, Hv. }
  destruct (bundle_step_cases baseName input) as [Hbundle|[text Ht]].
  2: { right; right. exists text. intros w.
       rewrite extract_fields_ok by done. by rewrite bind_run, Ht. }
  destruct (ocsp_step_cases baseName input) as [Hocsp|[[v Hv]|[text Ht]]].
  - left. repeat split; try done. intros w. by apply extract_ok.
  - right; left. exists v. intros w. rewrite extract_fields_ok by done.
    rewrite bind_run, bundle_step_ok by done. cbv beta iota. by rewrite Hv.
  - right; right. exists text. intros w. rewrite extract_fields_ok by done.
    rewrite bind_run, bundle_step_ok by done. cbv beta iota. by rewrite Ht.
Qed.

(** [extract] returns only [artifacts], only when every condition holds,
    and then the world is the one it started in. *)
Lemma extract_inv baseName input w w' outs :
  extract baseName input w = (w', inr outs) →
  w' = w ∧ outs = artifacts baseName input
  ∧ cert_ok input ∧ key_ok input ∧ encrypted_key_ok input ∧ csr_ok input
  ∧ bundle_ok input ∧ ocsp_ok input.
Proof.
  intros Hrun.
  destruct (extract_cases baseName input)
    as [(?&?&?&?&?&?&Hok)|[[v Hv]|[text Ht]]].
  - rewrite Hok in Hrun. by simplify_eq.
  - rewrite Hv in Hrun. simplify_eq.
  - rewrite Ht in Hrun. simplify_eq.
Qed.

(** Whatever the input, [extract] writes nothing to standard output and
    no file. *)
Lemma extract_quiet baseName input : quiet (extract baseName input).
Proof.
  intros w.
  destruct (extract_cases baseName input)
    as [(?&?&?&?&?&?&Hok)|[[v Hv]|[text Ht]]].
  - by rewrite Hok.
  - by rewrite Hv.
  - by rewrite Ht.
Qed.

(** ** The world *)

Lemma to_stderr_nil w : to_stderr EmptyString w = w.
Proof. destruct w. unfold to_stderr. simpl. by rewrite append_nil_r. Qed.

Lemma to_stderr_twice a b w : to_stderr b (to_stderr a w) = to_stderr (a +:+ b) w.
Proof. unfold to_stderr. simpl. by rewrite append_assoc. Qed.

Lemma to_stdout_nil w : to_stdout EmptyString w = w.
Proof. destruct w. unfold to_stdout. simpl. by rewrite append_nil_r. Qed.

Lemma to_stdout_twice a b w : to_stdout b (to_stdout a w) = to_stdout (a +:+ b) w.
Proof. unfold to_stdout. simpl. by rewrite append_assoc. Qed.

Lemma to_files_nil w : to_files [] w = w.
Proof. destruct w. unfold to_files. simpl. by rewrite app_nil_r. Qed.

Lemma to_files_twice a b w : to_files b (to_files a w) = to_files (a ++ b) w.
Proof. unfold to_files. simpl. by rewrite app_assoc. Qed.

(** ** The envelope *)

(** A loop that only prints. *)
Lemma for_range_stderr {A : Type} (text : A → string) (l : list A) w :
  for_range l (λ x, Fprint_Stderr (text x)) w
  = (to_stderr (joined (map text l)) w, inr tt).
Proof.
  revert w. induction l as [|x l IH]; intros w; simpl.
  - by rewrite ret_run, to_stderr_nil.
  - rewrite bind_run. unfold Fprint_Stderr at 1. cbv beta iota.
    by rewrite IH, to_stderr_twice.
Qed.

Lemma for_range_stdout {A : Type} (text : A → string) (l : list A) w :
  for_range l (λ x, Fprint_Stdout (text x)) w
  = (to_stdout (joined (map text l)) w, inr tt).
Proof.
  revert w. induction l as [|x l IH]; intros w; simpl.
  - by rewrite ret_run, to_stdout_nil.
  - rewrite bind_run. unfold Fprint_Stdout at 1. cbv beta iota.
    by rewrite IH, to_stdout_twice.
Qed.

Lemma unwrap_bare_run fileData w :
  unwrap fileData true w =
  match json_Unmarshal_map fileData with
  | inl _ => (to_stderr ("Failed to parse JSON: " +:+ fileData +:+ LF) w, inl (Exit 1))
  | inr input => (w, inr input)
  end.
Proof. unfold unwrap. by destruct (json_Unmarshal_map fileData). Qed.

Lemma unwrap_envelope_run fileData w :
  unwrap fileData false w =
  match json_Unmarshal_Response fileData with
  | inl err =>
      (to_stderr ("Failed to parse input: " +:+ Error err +:+ LF) w, inl (Exit 1))
  | inr response =>
      if Success response then (w, inr (Result response))
      else (to_stderr (request_failed_text response) w, inl (Exit 1))
  end.
Proof.
  unfold unwrap. destruct (json_Unmarshal_Response fileData) as [|response]; [done|].
  destruct (Success response); [done|]. cbn [negb].
  rewrite bind_run. unfold Fprint_Stderr at 1. cbv beta iota.
  rewrite bind_run, for_range_stderr. cbv beta iota.
  unfold os_Exit, request_failed_text. by rewrite to_stderr_twice, append_assoc.
Qed.

(** Unwrapping that succeeds leaves the world as it found it. *)
Lemma unwrap_inv fileData bare w w' input :
  unwrap fileData bare w = (w', inr input) →
  w' = w ∧ ∀ w2, unwrap fileData bare w2 = (w2, inr input).
Proof.
  destruct bare.
  - rewrite unwrap_bare_run. destruct (json_Unmarshal_map fileData) eqn:E;
      intros ?; simplify_eq. split; [done|]. intros. by rewrite unwrap_bare_run, E.
  - rewrite unwrap_envelope_run.
    destruct (json_Unmarshal_Response fileData) as [|r] eqn:E; [intros; simplify_eq|].
    destruct (Success r) eqn:Es; intros ?; simplify_eq. split; [done|].
    intros. by rewrite unwrap_envelope_run, E, Es.
Qed.

(** After the envelope, [writeOutput] is the field steps and the output. *)
Lemma writeOutput_unwrapped baseName fileData bare stdoutOutput jsonOutput w w' input :
  unwrap fileData bare w = (w', inr input) →
  writeOutput baseName fileData bare stdoutOutput jsonOutput w
  = (outs ← extract baseName input; sink outs stdoutOutput jsonOutput) w.
Proof.
  intros Hu. destruct (unwrap_inv _ _ _ _ _ Hu) as [-> _].
  unfold writeOutput. by rewrite bind_run, Hu.
Qed.

(** With every condition holding, it is the output of [artifacts]. *)
Lemma writeOutput_ok baseName fileData bare stdoutOutput jsonOutput w w' input :
  unwrap fileData bare w = (w', inr input) →
  cert_ok input → key_ok input → encrypted_key_ok input → csr_ok input →
  bundle_ok input → ocsp_ok input →
  writeOutput baseName fileData bare stdoutOutput jsonOutput w
  = sink (artifacts baseName input) stdoutOutput jsonOutput w.
Proof.
  intros Hu ? ? ? ? ? ?. rewrite (writeOutput_unwrapped _ _ _ _ _ _ _ _ Hu).
  by rewrite bind_run, extract_ok.
Qed.

(** ** The output *)

Lemma sink_json_run outs stdoutOutput w :
  sink outs stdoutOutput true w =
  match json_Marshal (jsonOutputDict outs) with
  | inl _ =>
      (to_stderr ("Failed to marshal to JSON the following data: "
                    +:+ fmt_map (jsonOutputDict outs) +:+ LF) w, inl (Exit 1))
  | inr jsonData => (to_stdout (jsonData +:+ LF) w, inr tt)
  end.
Proof. unfold sink. by destruct (json_Marshal (jsonOutputDict outs)). Qed.

Lemma sink_stdout_run outs w :
  sink outs true false w
  = (to_stdout (joined (map (λ o, shown o +:+ LF) outs)) w, inr tt).
Proof. unfold sink. apply for_range_stdout. Qed.

Lemma sink_files_run outs w :
  writes_succeed →
  sink outs false false w = (to_files (map file_entry outs) w, inr tt).
Proof.
  intros Hw. unfold sink. revert w.
  induction outs as [|o outs IH]; intros w; simpl.
  - by rewrite ret_run, to_files_nil.
  - rewrite bind_run. unfold writeFile. rewrite bind_run.
    unfold ioutil_WriteFile. rewrite Hw. cbv beta iota.
    rewrite ret_run, IH, to_files_twice. reflexivity.
Qed.

(** ** Artifacts by name *)

Lemma named_app names a b : named names (a ++ b) = named names a ++ named names b.
Proof. apply filter_app. Qed.

Lemma named_all names outs :
  Forall (λ o, Filename o ∈ names) outs → named names outs = outs.
Proof.
  induction 1 as [|o outs Ho _ IH]; [done|].
  unfold named in *. rewrite filter_cons. rewrite IH.
  by destruct (decide (Filename o ∈ names)).
Qed.

Lemma named_none names outs :
  Forall (λ o, Filename o ∉ names) outs → named names outs = [].
Proof.
  induction 1 as [|o outs Ho _ IH]; [done|].
  unfold named in *. rewrite filter_cons. rewrite IH.
  by destruct (decide (Filename o ∈ names)).
Qed.

Lemma text_artifact_names o filename perms :
  Forall (λ a, Filename a = filename) (text_artifact o filename perms).
Proof.
  unfold text_artifact. destruct o as [[]|]; try constructor.
  destruct (decide _); repeat constructor.
Qed.

Lemma encrypted_key_artifact_names baseName input :
  Forall (λ a, Filename a = baseName +:+ "-key.enc")
    (encrypted_key_artifact baseName input).
Proof.
  unfold encrypted_key_artifact.
  destruct (input !! "encrypted_key") as [[]|]; repeat constructor.
Qed.

Lemma bundle_artifacts_names baseName input :
  Forall (λ a, Filename a ∈ [baseName +:+ "-bundle.pem"; baseName +:+ "-root.pem"])
    (bundle_artifacts baseName input).
Proof.
  unfold bundle_artifacts. destruct (inner_bundle input) as [bundle|]; [|constructor].
  destruct (bundle !! "bundle") as [[]|]; try constructor.
  destruct (bundle !! "root") as [[]|]; try constructor.
  - simpl. set_solver.
  - constructor; [|constructor]. simpl. set_solver.
Qed.

Lemma ocsp_artifact_names baseName input :
  Forall (λ a, Filename a = baseName +:+ "-response.der")
    (ocsp_artifact baseName input).
Proof.
  unfold ocsp_artifact. destruct (input !! "ocspResponse") as [[]|]; try constructor.
  destruct (base64_DecodeString s); repeat constructor.
Qed.

(** A part whose names are all outside [names] contributes nothing, a
    part whose names are all inside stays whole. *)
Lemma named_off names outs filename :
  Forall (λ a, Filename a = filename) outs → filename ∉ names →
  named names outs = [].
Proof.
  intros Hall Hout. apply named_none.
  eapply Forall_impl; [exact Hall|]. by intros a ->.
Qed.

Lemma named_off_list names outs (filenames : list string) :
  Forall (λ a, Filename a ∈ filenames) outs →
  (∀ n, n ∈ filenames → n ∉ names) →
  named names outs = [].
Proof.
  intros Hall Hout. apply named_none.
  eapply Forall_impl; [exact Hall|]. intros a Ha. by apply Hout.
Qed.

Lemma named_on names outs filename :
  Forall (λ a, Filename a = filename) outs → filename ∈ names →
  named names outs = outs.
Proof.
  intros Hall Hin. apply named_all.
  eapply Forall_impl; [exact Hall|]. by intros a ->.
Qed.

End Properties.

(** Two of the seven file names differ: they are one base name followed
    by different endings. *)
Ltac names_differ :=
  intros;
  repeat match goal with
         | H : _ ∈ _ :: _ |- _ => rewrite elem_of_cons in H; destruct H as [H|H]
         | H : _ ∈ [] |- _ => by rewrite elem_of_nil in H
         end;
  subst;
  repeat match goal with
         | |- _ ∉ _ :: _ => apply not_elem_of_cons; split
         | |- _ ∉ [] => apply not_elem_of_nil
         | |- _ +:+ _ ≠ _ +:+ _ => by apply suffix_differs
         end.

Section Claims.
Context {L : GoLib}.

Lemma named_on_list names outs (filenames : list string) :
  Forall (λ a, Filename a ∈ filenames) outs →
  (∀ n, n ∈ filenames → n ∈ names) →
  named names outs = outs.
Proof.
  intros Hall Hin. apply named_all.
  eapply Forall_impl; [exact Hall|]. intros a Ha. by apply Hin.
Qed.

(** Each part of [artifacts] is kept whole or dropped whole by [named]. *)
Tactic Notation "keep_or_drop" uconstr(lem) :=
  first [ rewrite (named_off _ _ _ lem) by names_differ
        | rewrite (named_off_list _ _ _ lem) by names_differ
        | rewrite (named_on _ _ _ lem) by set_solver
        | rewrite (named_on_list _ _ _ lem) by set_solver ].

Ltac named_artifacts input :=
  unfold artifacts; rewrite !named_app;
  keep_or_drop (text_artifact_names (consulted input "cert" "certificate") _ _);
  keep_or_drop (text_artifact_names (consulted input "key" "private_key") _ _);
  keep_or_drop (encrypted_key_artifact_names _ _);
  keep_or_drop (text_artifact_names (consulted input "csr" "certificate_request") _ _);
  keep_or_drop (bundle_artifacts_names _ _);
  keep_or_drop (ocsp_artifact_names _ _);
  by rewrite ?app_nil_r, ?app_nil_l.

Lemma named_pem_artifacts baseName input :
  named [baseName +:+ ".pem"] (artifacts baseName input)
  = text_artifact (consulted input "cert" "certificate")
      (baseName +:+ ".pem") (oct 6 6 4).
Proof. named_artifacts input. Qed.

Lemma named_key_pem_artifacts baseName input :
  named [baseName +:+ "-key.pem"] (artifacts baseName input)
  = text_artifact (consulted input "key" "private_key")
      (baseName +:+ "-key.pem") (oct 6 0 0).
Proof. named_artifacts input. Qed.

Lemma named_key_enc_artifacts baseName input :
  named [baseName +:+ "-key.enc"] (artifacts baseName input)
  = encrypted_key_artifact baseName input.
Proof. named_artifacts input. Qed.

Lemma named_csr_artifacts baseName input :
  named [baseName +:+ ".csr"] (artifacts baseName input)
  = text_artifact (consulted input "csr" "certificate_request")
      (baseName +:+ ".csr") (oct 6 4 4).
Proof. named_artifacts input. Qed.

Lemma named_bundle_artifacts baseName input :
  named [baseName +:+ "-bundle.pem"; baseName +:+ "-root.pem"]
    (artifacts baseName input)
  = bundle_artifacts baseName input.
Proof. named_artifacts input. Qed.

Lemma named_der_artifacts baseName input :
  named [baseName +:+ "-response.der"] (artifacts baseName input)
  = ocsp_artifact baseName input.
Proof. named_artifacts input. Qed.

(** ** The claims *)

(** C2.  A response decoded in non-bare mode whose [success] is false:
    the diagnostic stream receives [Request failed:] and then the text of
    every error, each after a tab and on a line of its own; nothing goes to
    standard output, no file is written, and the process exits with status
    1 before any field is looked at, whatever [result] holds. *)
Theorem failed_request_stops baseName fileData response stdoutOutput jsonOutput w :
  json_Unmarshal_Response fileData = inr response →
  Success response = false →
  writeOutput baseName fileData false stdoutOutput jsonOutput w
  = (to_stderr
       ("Request failed:" +:+ LF
          +:+ joined (map (λ msg, TAB +:+ Message msg +:+ LF) (Errors response)))
       w,
     inl (Exit 1))
  ∧ stdout (writeOutput baseName fileData false stdoutOutput jsonOutput w).1 = stdout w
  ∧ files (writeOutput baseName fileData false stdoutOutput jsonOutput w).1 = files w.
Proof.
  intros Hparse Hfail.
  assert (writeOutput baseName fileData false stdoutOutput jsonOutput w
          = (to_stderr (request_failed_text response) w, inl (Exit 1))) as Hrun.
  { unfold writeOutput. rewrite bind_run, unwrap_envelope_run, Hparse, Hfail.
    reflexivity. }
  by rewrite Hrun.
Qed.


(** C1, as amended.  A response decoded in non-bare mode with [success]
    true and a non-empty string [s] under [cert] in [result], in which no
    later step stops (the other fields read are strings where present, a
    bundle is complete, the OCSP response decodes): the first artifact is
    [<base>.pem], text, with contents [s] and mode 0664, and no other
    artifact has that name.  Where every write succeeds the default mode
    writes that file first. *)
Theorem cert_artifact_emitted baseName fileData response s :
  json_Unmarshal_Response fileData = inr response →
  Success response = true →
  Result response !! "cert" = Some (JStr s) →
  s ≠ EmptyString →
  key_ok (Result response) → encrypted_key_ok (Result response) →
  csr_ok (Result response) → bundle_ok (Result response) →
  ocsp_ok (Result response) →
  ∃ rest,
    let pem := mkOutputFile (baseName +:+ ".pem") s false (oct 6 6 4) in
    (∀ w, extract baseName (Result response) w = (w, inr (pem :: rest)))
    ∧ (∀ stdoutOutput jsonOutput w,
         writeOutput baseName fileData false stdoutOutput jsonOutput w
         = sink (pem :: rest) stdoutOutput jsonOutput w)
    ∧ named [baseName +:+ ".pem"] rest = []
    ∧ (writes_succeed → ∀ w,
         writeOutput baseName fileData false false false w
         = (to_files ((baseName +:+ ".pem", s, oct 6 6 4) :: map file_entry rest) w,
            inr tt)).
Proof.
  intros Hparse Hsucc Hcert Hs Hkey Henc Hcsr Hbundle Hocsp.
  set (input := Result response) in *.
  assert (consulted input "cert" "certificate" = Some (JStr s)) as Hc
    by (unfold consulted; by rewrite Hcert).
  assert (cert_ok input) as Hcertok by (unfold cert_ok; by rewrite Hc).
  assert (∀ w, unwrap fileData false w = (w, inr input)) as Hu.
  { intros w. by rewrite unwrap_envelope_run, Hparse, Hsucc. }
  set (rest :=
         text_artifact (consulted input "key" "private_key")
           (baseName +:+ "-key.pem") (oct 6 0 0)
         ++ encrypted_key_artifact baseName input
         ++ text_artifact (consulted input "csr" "certificate_request")
              (baseName +:+ ".csr") (oct 6 4 4)
         ++ bundle_artifacts baseName input
         ++ ocsp_artifact baseName input).
  assert (artifacts baseName input
          = mkOutputFile (baseName +:+ ".pem") s false (oct 6 6 4) :: rest) as Ha.
  { unfold artifacts. rewrite Hc. unfold text_artifact at 1.
    by destruct (decide (s ≠ EmptyString)). }
  exists rest. cbn zeta. split; [|split; [|split]].
  - intros w. by rewrite extract_ok, Ha.
  - intros so jo w. by rewrite (writeOutput_ok _ _ _ _ _ _ _ _ (Hu w)), Ha.
  - unfold rest. rewrite !named_app.
    keep_or_drop (text_artifact_names (consulted input "key" "private_key") _ _).
    keep_or_drop (encrypted_key_artifact_names _ _).
    keep_or_drop (text_artifact_names (consulted input "csr" "certificate_request") _ _).
    keep_or_drop (bundle_artifacts_names _ _).
    keep_or_drop (ocsp_artifact_names _ _).
    done.
  - intros Hw w. rewrite (writeOutput_ok _ _ _ _ _ _ _ _ (Hu w)) by done.
    by rewrite sink_files_run, Ha.
Qed.

(** [extract] reads nine keys of its input, and [certificate] only when
    [cert] is absent: two inputs that agree there are treated alike. *)
Lemma extract_ext baseName (m1 m2 : gmap string json) w :
  m1 !! "cert" = m2 !! "cert" →
  (m1 !! "cert" = None → m1 !! "certificate" = m2 !! "certificate") →
  m1 !! "key" = m2 !! "key" →
  (m1 !! "key" = None → m1 !! "private_key" = m2 !! "private_key") →
  m1 !! "encrypted_key" = m2 !! "encrypted_key" →
  m1 !! "csr" = m2 !! "csr" →
  (m1 !! "csr" = None → m1 !! "certificate_request" = m2 !! "certificate_request") →
  m1 !! "result" = m2 !! "result" →
  m1 !! "ocspResponse" = m2 !! "ocspResponse" →
  extract baseName m1 w = extract baseName m2 w.
Proof.
  intros Hcert Hcert' Hkey Hkey' Henc Hcsr Hcsr' Hres Hocsp.
  unfold extract, cert_step, key_step, encrypted_key_step, csr_step,
    bundle_step, ocsp_step.
  rewrite <- Hcert, <- Hkey, <- Henc, <- Hcsr, <- Hres, <- Hocsp.
  destruct (m1 !! "cert"); [|rewrite <- Hcert' by done];
    (destruct (m1 !! "key"); [|rewrite <- Hkey' by done]);
    (destruct (m1 !! "csr"); [|rewrite <- Hcsr' by done]);
    reflexivity.
Qed.


(** C10.  In bare mode the run stops at the envelope exactly when the
    bytes do not decode into a mapping; otherwise it goes on to the field
    steps with the decoded mapping as it is.  No step reads the key
    [success]: whatever stands there, or nothing, the steps do the same, and
    a mapping with [success] false and a certificate yields the
    certificate. *)
Theorem bare_mode_ignores_success baseName fileData stdoutOutput jsonOutput w :
  writeOutput baseName fileData true stdoutOutput jsonOutput w
  = match json_Unmarshal_map fileData with
    | inl _ =>
        (to_stderr ("Failed to parse JSON: " +:+ fileData +:+ LF) w, inl (Exit 1))
    | inr input =>
        (outs ← extract baseName input; sink outs stdoutOutput jsonOutput) w
    end
  ∧ (∀ (input : gmap string json) v,
       extract baseName (<["success" := v]> input) w = extract baseName input w)
  ∧ (∀ input : gmap string json,
       extract baseName (delete "success" input) w = extract baseName input w)
  ∧ extract baseName (<["success" := JBool false]> {["cert" := JStr "CERTDATA"]}) w
    = (w, inr [mkOutputFile (baseName +:+ ".pem") "CERTDATA" false (oct 6 6 4)]).
Proof.
  split; [|split; [|split]].
  - unfold writeOutput. rewrite bind_run, unwrap_bare_run.
    by destruct (json_Unmarshal_map fileData).
  - intros input v. apply extract_ext; by rewrite ?lookup_insert_ne by done.
  - intros input. apply extract_ext; by rewrite ?lookup_delete_ne by done.
  - rewrite <- (extract_ext baseName {["cert" := JStr "CERTDATA"]})
      by (by rewrite ?lookup_insert_ne by done).
    by rewrite extract_ok.
Qed.

(** A field is a string or absent, or it holds a value of another type. *)
Lemma string_if_present_cases (o : option json) :
  string_if_present o ∨ ∃ v, o = Some v ∧ ∀ s, v ≠ JStr s.
Proof.
  destruct o as [v|]; [|by left].
  destruct v; try (by left); right; by eexists.
Qed.

(** The first of the four fields read before the bundle that holds a value
    [v] of another type than string, looking at them in the order of the
    steps. *)
Lemma first_mistyped_field (input : gmap string json) :
  (cert_ok input ∧ key_ok input ∧ encrypted_key_ok input ∧ csr_ok input)
  ∨ ∃ v, (∀ s, v ≠ JStr s)
      ∧ (consulted input "cert" "certificate" = Some v
         ∨ (cert_ok input ∧ consulted input "key" "private_key" = Some v)
         ∨ (cert_ok input ∧ key_ok input ∧ input !! "encrypted_key" = Some v)
         ∨ (cert_ok input ∧ key_ok input ∧ encrypted_key_ok input
            ∧ consulted input "csr" "certificate_request" = Some v)).
Proof.
  destruct (string_if_present_cases (consulted input "cert" "certificate"))
    as [Hcert|(v & Ev & Hv)].
  2: { right. exists v. split; [done|]. by left. }
  destruct (string_if_present_cases (consulted input "key" "private_key"))
    as [Hkey|(v & Ev & Hv)].
  2: { right. exists v. split; [done|]. right; left. done. }
  destruct (string_if_present_cases (input !! "encrypted_key"))
    as [Henc|(v & Ev & Hv)].
  2: { right. exists v. split; [done|]. right; right; left. done. }
  destruct (string_if_present_cases (consulted input "csr" "certificate_request"))
    as [Hcsr|(v & Ev & Hv)].
  2: { right. exists v. split; [done|]. right; right; right. done. }
  by left.
Qed.

(** The field steps stop at the first field that is not a string. *)
Lemma extract_panics_at_first_mistyped baseName (input : gmap string json) v w :
  (∀ s, v ≠ JStr s) →
  consulted input "cert" "certificate" = Some v
  ∨ (cert_ok input ∧ consulted input "key" "private_key" = Some v)
  ∨ (cert_ok input ∧ key_ok input ∧ input !! "encrypted_key" = Some v)
  ∨ (cert_ok input ∧ key_ok input ∧ encrypted_key_ok input
     ∧ consulted input "csr" "certificate_request" = Some v) →
  extract baseName input w = (w, inl (Panic (TypeAssertionError v))).
Proof.
  intros Hv [Ev|[(Hcert & Ev)|[(Hcert & Hkey & Ev)|(Hcert & Hkey & Henc & Ev)]]];
    unfold extract.
  - rewrite bind_run, cert_step_run, Ev.
    destruct v; try reflexivity. by destruct (Hv s).
  - rewrite bind_run, cert_step_ok by done. cbv beta iota.
    rewrite bind_run, key_step_run, Ev.
    destruct v; try reflexivity. by destruct (Hv s).
  - rewrite bind_run, cert_step_ok by done. cbv beta iota.
    rewrite bind_run, key_step_ok by done. cbv beta iota.
    rewrite bind_run, encrypted_key_step_run, Ev.
    destruct v; try reflexivity. by destruct (Hv s).
  - rewrite bind_run, cert_step_ok by done. cbv beta iota.
    rewrite bind_run, key_step_ok by done. cbv beta iota.
    rewrite bind_run, encrypted_key_step_ok by done. cbv beta iota.
    rewrite bind_run, csr_step_run, Ev.
    destruct v; try reflexivity. by destruct (Hv s).
Qed.

(** C3, as amended.  A mapping under [result] with a mapping under
    [bundle] that has no string under [bundle] or no string under [root]:
    the run always fails, and nothing reaches standard output or a file.
    Where the four fields read before are strings or absent, the failure is
    the bundle error: the diagnostic stream receives
    [inner bundle parsing failed!] when the chain is missing, else
    [root parsing failed!], and the process exits with status 1.
    Otherwise the run has stopped before the bundle is read, at the first
    of these four fields, in the order of the steps, that holds a value of
    another type: it ends in the panic of the failed type assertion on that
    value, and the program has written nothing. *)
Theorem incomplete_bundle_fails
    baseName fileData bare stdoutOutput jsonOutput w w' input result bundle :
  unwrap fileData bare w = (w', inr input) →
  input !! "result" = Some (JObj result) →
  result !! "bundle" = Some (JObj bundle) →
  ¬ holds_string (bundle !! "bundle") ∨ ¬ holds_string (bundle !! "root") →
  (∃ w'' h,
     writeOutput baseName fileData bare stdoutOutput jsonOutput w = (w'', inl h)
     ∧ stdout w'' = stdout w ∧ files w'' = files w)
  ∧ (cert_ok input → key_ok input → encrypted_key_ok input → csr_ok input →
     writeOutput baseName fileData bare stdoutOutput jsonOutput w
     = (to_stderr
          (match bundle !! "bundle" with
           | Some (JStr _) => "root parsing failed!"
           | _ => "inner bundle parsing failed!"
           end +:+ LF) w,
        inl (Exit 1)))
  ∧ ((cert_ok input ∧ key_ok input ∧ encrypted_key_ok input ∧ csr_ok input)
     ∨ ∃ v, (∀ s, v ≠ JStr s)
         ∧ (consulted input "cert" "certificate" = Some v
            ∨ (cert_ok input ∧ consulted input "key" "private_key" = Some v)
            ∨ (cert_ok input ∧ key_ok input ∧ input !! "encrypted_key" = Some v)
            ∨ (cert_ok input ∧ key_ok input ∧ encrypted_key_ok input
               ∧ consulted input "csr" "certificate_request" = Some v))
         ∧ writeOutput baseName fileData bare stdoutOutput jsonOutput w
           = (w, inl (Panic (TypeAssertionError v)))).
Proof.
  intros Hu Hres Hbun Hmissing.
  rewrite (writeOutput_unwrapped _ _ _ _ _ _ _ _ Hu).
  assert (inner_bundle input = Some bundle) as Hinner
    by (unfold inner_bundle; by rewrite Hres, Hbun).
  assert (¬ bundle_ok input) as Hbad.
  { unfold bundle_ok. rewrite Hinner. tauto. }
  split; [|split].
  - rewrite bind_run.
    destruct (extract_cases baseName input)
      as [(_&_&_&_&Hok&_)|[[v Hv]|[text Ht]]]; [done| |].
    + rewrite Hv. by eexists _, _.
    + rewrite Ht. by eexists _, _.
  - intros Hcert Hkey Henc Hcsr.
    rewrite bind_run, extract_fields_ok by done.
    rewrite bind_run, bundle_step_run, Hinner.
    destruct (bundle !! "bundle") as [[]|]; try reflexivity.
    destruct (bundle !! "root") as [[]|]; try reflexivity.
    simpl in Hmissing. tauto.
  - destruct (first_mistyped_field input) as [Hok|(v & Hv & Hfield)]; [by left|].
    right. exists v. split; [done|]. split; [done|].
    by rewrite bind_run, (extract_panics_at_first_mistyped _ _ v).
Qed.

(** C4, as amended.  A mapping under [result] with a mapping under
    [bundle] holding the strings [b] under [bundle] and [r] under [root],
    in an input where no other step stops: the artifacts named
    [<base>-bundle.pem] and [<base>-root.pem] are exactly two, in this
    order, the first with [b], a line feed and [r], the second with [r]
    alone, both text and of mode 0644. *)
Theorem bundle_artifacts_emitted
    baseName fileData bare w w' input result bundle b r :
  unwrap fileData bare w = (w', inr input) →
  input !! "result" = Some (JObj result) →
  result !! "bundle" = Some (JObj bundle) →
  bundle !! "bundle" = Some (JStr b) →
  bundle !! "root" = Some (JStr r) →
  cert_ok input → key_ok input → encrypted_key_ok input → csr_ok input →
  ocsp_ok input →
  ∃ outs,
    extract baseName input w = (w, inr outs)
    ∧ (∀ stdoutOutput jsonOutput,
         writeOutput baseName fileData bare stdoutOutput jsonOutput w
         = sink outs stdoutOutput jsonOutput w)
    ∧ named [baseName +:+ "-bundle.pem"; baseName +:+ "-root.pem"] outs
      = [mkOutputFile (baseName +:+ "-bundle.pem") (b +:+ LF +:+ r) false (oct 6 4 4);
         mkOutputFile (baseName +:+ "-root.pem") r false (oct 6 4 4)].
Proof.
  intros Hu Hres Hbun Hb Hr Hcert Hkey Henc Hcsr Hocsp.
  assert (inner_bundle input = Some bundle) as Hinner
    by (unfold inner_bundle; by rewrite Hres, Hbun).
  assert (bundle_ok input) as Hbundle.
  { unfold bundle_ok. by rewrite Hinner, Hb, Hr. }
  exists (artifacts baseName input). split; [|split].
  - by apply extract_ok.
  - intros so jo. by apply (writeOutput_ok _ _ _ _ _ _ w').
  - rewrite named_bundle_artifacts. unfold bundle_artifacts.
    by rewrite Hinner, Hb, Hr.
Qed.

(** C6, as amended.  A string [s] under [ocspResponse], in an input where
    no earlier step stops.  If [s] does not decode, the diagnostic stream
    receives [Failed to parse ocspResponse:] followed by the text of the
    decoder's error, and the process exits with status 1.  If it does, the
    last artifact is [<base>-response.der], binary, of mode 0644, its
    contents the decoded bytes, and no other artifact has that name. *)
Theorem ocsp_response_decoded
    baseName fileData bare stdoutOutput jsonOutput w w' input s :
  unwrap fileData bare w = (w', inr input) →
  input !! "ocspResponse" = Some (JStr s) →
  cert_ok input → key_ok input → encrypted_key_ok input → csr_ok input →
  bundle_ok input →
  match base64_DecodeString s with
  | inl err =>
      writeOutput baseName fileData bare stdoutOutput jsonOutput w
      = (to_stderr ("Failed to parse ocspResponse: " +:+ Error err +:+ LF) w,
         inl (Exit 1))
  | inr resp =>
      ∃ before,
        let der := mkOutputFile (baseName +:+ "-response.der") resp true (oct 6 4 4) in
        extract baseName input w = (w, inr (before ++ [der]))
        ∧ writeOutput baseName fileData bare stdoutOutput jsonOutput w
          = sink (before ++ [der]) stdoutOutput jsonOutput w
        ∧ named [baseName +:+ "-response.der"] before = []
  end.
Proof.
  intros Hu Hocsp Hcert Hkey Henc Hcsr Hbundle.
  destruct (base64_DecodeString s) as [err|resp] eqn:Hd.
  - rewrite (writeOutput_unwrapped _ _ _ _ _ _ _ _ Hu).
    rewrite bind_run, extract_fields_ok by done.
    rewrite bind_run, bundle_step_ok by done. cbv beta iota.
    by rewrite ocsp_step_run, Hocsp, Hd.
  - assert (ocsp_ok input) as Hok by (unfold ocsp_ok; by rewrite Hocsp, Hd).
    assert (ocsp_artifact baseName input
            = [mkOutputFile (baseName +:+ "-response.der") resp true (oct 6 4 4)])
      as Hder by (unfold ocsp_artifact; by rewrite Hocsp, Hd).
    exists (field_artifacts baseName input ++ bundle_artifacts baseName input).
    cbn zeta. rewrite <- Hder, <- app_assoc, <- artifacts_split.
    split; [|split].
    + by apply extract_ok.
    + by apply (writeOutput_ok _ _ _ _ _ _ w').
    + unfold field_artifacts. rewrite !named_app.
      keep_or_drop (text_artifact_names (consulted input "cert" "certificate") _ _).
      keep_or_drop (text_artifact_names (consulted input "key" "private_key") _ _).
      keep_or_drop (encrypted_key_artifact_names _ _).
      keep_or_drop (text_artifact_names (consulted input "csr" "certificate_request") _ _).
      keep_or_drop (bundle_artifacts_names _ _).
      done.
Qed.

(** C9, as amended.  A string [v] under [encrypted_key], empty or not, in
    an input where no other step stops: exactly one artifact is named
    [<base>-key.enc]; it is binary, of mode 0600, and its contents are [v].
    The certificate, the key and the request are treated otherwise: an
    empty string found for one of them yields no artifact of its name. *)
Theorem encrypted_key_emitted_even_empty
    baseName fileData bare w w' input v :
  unwrap fileData bare w = (w', inr input) →
  input !! "encrypted_key" = Some (JStr v) →
  cert_ok input → key_ok input → csr_ok input → bundle_ok input → ocsp_ok input →
  ∃ outs,
    extract baseName input w = (w, inr outs)
    ∧ (∀ stdoutOutput jsonOutput,
         writeOutput baseName fileData bare stdoutOutput jsonOutput w
         = sink outs stdoutOutput jsonOutput w)
    ∧ named [baseName +:+ "-key.enc"] outs
      = [mkOutputFile (baseName +:+ "-key.enc") v true (oct 6 0 0)]
    ∧ (consulted input "cert" "certificate" = Some (JStr EmptyString) →
       named [baseName +:+ ".pem"] outs = [])
    ∧ (consulted input "key" "private_key" = Some (JStr EmptyString) →
       named [baseName +:+ "-key.pem"] outs = [])
    ∧ (consulted input "csr" "certificate_request" = Some (JStr EmptyString) →
       named [baseName +:+ ".csr"] outs = []).
Proof.
  intros Hu Henc Hcert Hkey Hcsr Hbundle Hocsp.
  assert (encrypted_key_ok input) as Hencok
    by (unfold encrypted_key_ok; by rewrite Henc).
  exists (artifacts baseName input). repeat split.
  - by apply extract_ok.
  - intros so jo. by apply (writeOutput_ok _ _ _ _ _ _ w').
  - rewrite named_key_enc_artifacts. unfold encrypted_key_artifact.
    by rewrite Henc.
  - intros Hempty. by rewrite named_pem_artifacts, Hempty.
  - intros Hempty. by rewrite named_key_pem_artifacts, Hempty.
  - intros Hempty. by rewrite named_csr_artifacts, Hempty.
Qed.

End Claims.

(** ** Further properties of the output and of the steps *)

Section Further.
Context {L : GoLib}.

(** With [stdoutOutput] and without [jsonOutput], standard output receives
    the contents of every artifact in order, each followed by a line feed,
    a binary one in base64; no file name is printed and no file written. *)
Theorem stdout_mode_prints_in_order outs w :
  sink outs true false w
  = (to_stdout
       (joined (map (λ o, (if IsBinary o
                           then base64_EncodeToString (Contents o)
                           else Contents o) +:+ LF) outs)) w,
     inr tt).
Proof. apply sink_stdout_run. Qed.

(** With neither flag, if every write succeeds, each artifact is written
    to the file of its name with its contents as they are and its
    permission bits, in order, and nothing is printed. *)
Theorem default_mode_writes_each_file outs w :
  writes_succeed →
  sink outs false false w
  = (to_files (map (λ o, (Filename o, Contents o, Perms o)) outs) w, inr tt).
Proof. apply sink_files_run. Qed.

(** A write that fails is fatal: the error goes to the diagnostic stream
    and the process exits with status 1 without writing the artifacts that
    follow. *)
Theorem write_failure_is_fatal o outs w err :
  WriteFile_err (Filename o) (Contents o) (Perms o) w = Some err →
  sink (o :: outs) false false w = (to_stderr (Error err +:+ LF) w, inl (Exit 1)).
Proof.
  intros Hfail. unfold sink. simpl for_range.
  rewrite bind_run. unfold writeFile. rewrite bind_run.
  unfold ioutil_WriteFile. by rewrite Hfail.
Qed.

(** With [jsonOutput], standard output receives one line: the encoding of
    the mapping from file name to contents (base64 for a binary artifact,
    the last artifact of a name winning); no file is written.  Should the
    encoder fail, the process exits with status 1. *)
Theorem json_mode_prints_one_object outs stdoutOutput w :
  sink outs stdoutOutput true w
  = match json_Marshal
            (foldl (λ dict o,
                      <[Filename o := if IsBinary o
                                      then base64_EncodeToString (Contents o)
                                      else Contents o]> dict) ∅ outs) with
    | inl _ =>
        (to_stderr ("Failed to marshal to JSON the following data: "
                      +:+ fmt_map (jsonOutputDict outs) +:+ LF) w,
         inl (Exit 1))
    | inr jsonData => (to_stdout (jsonData +:+ LF) w, inr tt)
    end.
Proof. apply sink_json_run. Qed.

(** The field steps run to the end exactly when each of their conditions
    holds, and then they return [artifacts] without touching the world. *)
Theorem extraction_completes_exactly_when baseName input w :
  (∃ outs, extract baseName input w = (w, inr outs))
  ↔ cert_ok input ∧ key_ok input ∧ encrypted_key_ok input ∧ csr_ok input
    ∧ bundle_ok input ∧ ocsp_ok input.
Proof.
  split.
  - intros [outs Hrun]. by destruct (extract_inv _ _ _ _ _ Hrun) as (_&_&?).
  - intros (?&?&?&?&?&?). eexists. by apply extract_ok.
Qed.

Lemma text_artifact_sublist o filename perms :
  map Filename (text_artifact o filename perms) `sublist_of` [filename].
Proof.
  unfold text_artifact. destruct o as [[]|]; try apply sublist_nil_l.
  destruct (decide _); [done | apply sublist_nil_l].
Qed.

(** The artifacts come in the fixed order of the fields: certificate, key,
    encrypted key, request, bundle, root, OCSP response. *)
Theorem artifacts_in_field_order baseName input w w' outs :
  extract baseName input w = (w', inr outs) →
  map Filename outs `sublist_of`
    [baseName +:+ ".pem"; baseName +:+ "-key.pem"; baseName +:+ "-key.enc";
     baseName +:+ ".csr"; baseName +:+ "-bundle.pem"; baseName +:+ "-root.pem";
     baseName +:+ "-response.der"].
Proof.
  intros Hrun. destruct (extract_inv _ _ _ _ _ Hrun) as (_ & -> & _).
  unfold artifacts. rewrite !map_app.
  change [baseName +:+ ".pem"; baseName +:+ "-key.pem"; baseName +:+ "-key.enc";
          baseName +:+ ".csr"; baseName +:+ "-bundle.pem"; baseName +:+ "-root.pem";
          baseName +:+ "-response.der"]
    with ([baseName +:+ ".pem"] ++ [baseName +:+ "-key.pem"]
          ++ [baseName +:+ "-key.enc"] ++ [baseName +:+ ".csr"]
          ++ [baseName +:+ "-bundle.pem"; baseName +:+ "-root.pem"]
          ++ [baseName +:+ "-response.der"]).
  repeat apply sublist_app; try apply text_artifact_sublist.
  - unfold encrypted_key_artifact.
    destruct (input !! "encrypted_key") as [[]|]; try apply sublist_nil_l. done.
  - unfold bundle_artifacts.
    destruct (inner_bundle input) as [bundle|]; [|apply sublist_nil_l].
    destruct (bundle !! "bundle") as [[]|]; try apply sublist_nil_l.
    destruct (bundle !! "root") as [[]|]; try apply sublist_nil_l. done.
  - unfold ocsp_artifact.
    destruct (input !! "ocspResponse") as [[]|]; try apply sublist_nil_l.
    destruct (base64_DecodeString s); [apply sublist_nil_l | done].
Qed.

(** In non-bare mode, bytes that do not decode into a response stop the
    run: the decoder's error goes to the diagnostic stream after
    [Failed to parse input:], and the process exits with status 1. *)
Theorem undecodable_response_exits baseName fileData stdoutOutput jsonOutput w err :
  json_Unmarshal_Response fileData = inl err →
  writeOutput baseName fileData false stdoutOutput jsonOutput w
  = (to_stderr ("Failed to parse input: " +:+ Error err +:+ LF) w, inl (Exit 1)).
Proof.
  intros Hparse. unfold writeOutput.
  by rewrite bind_run, unwrap_envelope_run, Hparse.
Qed.

End Further.

(** ** The key, the request and the bundle *)

Section Fields.
Context {L : GoLib}.

(** A non-empty string [s] found for the key, under [key] or, [key] being
    absent, under [private_key], in an input where no other step stops:
    exactly one artifact is named [<base>-key.pem]; it is text, of mode
    0600, and its contents are [s]. *)
Theorem key_artifact_emitted baseName fileData bare w w' input s :
  unwrap fileData bare w = (w', inr input) →
  input !! "key" = Some (JStr s)
  ∨ (input !! "key" = None ∧ input !! "private_key" = Some (JStr s)) →
  s ≠ EmptyString →
  cert_ok input → encrypted_key_ok input → csr_ok input →
  bundle_ok input → ocsp_ok input →
  ∃ outs,
    extract baseName input w = (w, inr outs)
    ∧ (∀ stdoutOutput jsonOutput,
         writeOutput baseName fileData bare stdoutOutput jsonOutput w
         = sink outs stdoutOutput jsonOutput w)
    ∧ named [baseName +:+ "-key.pem"] outs
      = [mkOutputFile (baseName +:+ "-key.pem") s false (oct 6 0 0)].
Proof.
  intros Hu Hfound Hs Hcert Henc Hcsr Hbundle Hocsp.
  assert (consulted input "key" "private_key" = Some (JStr s)) as Hc.
  { unfold consulted. by destruct Hfound as [->|[-> ->]]. }
  assert (key_ok input) as Hkey by (unfold key_ok; by rewrite Hc).
  exists (artifacts baseName input). split; [|split].
  - by apply extract_ok.
  - intros so jo. by apply (writeOutput_ok _ _ _ _ _ _ w').
  - rewrite named_key_pem_artifacts, Hc. unfold text_artifact.
    by destruct (decide (s ≠ EmptyString)).
Qed.

(** The same for the request: a non-empty string [s] under [csr] or,
    [csr] being absent, under [certificate_request] gives exactly one
    artifact named [<base>.csr], text, of mode 0644, with contents [s]. *)
Theorem csr_artifact_emitted baseName fileData bare w w' input s :
  unwrap fileData bare w = (w', inr input) →
  input !! "csr" = Some (JStr s)
  ∨ (input !! "csr" = None ∧ input !! "certificate_request" = Some (JStr s)) →
  s ≠ EmptyString →
  cert_ok input → key_ok input → encrypted_key_ok input →
  bundle_ok input → ocsp_ok input →
  ∃ outs,
    extract baseName input w = (w, inr outs)
    ∧ (∀ stdoutOutput jsonOutput,
         writeOutput baseName fileData bare stdoutOutput jsonOutput w
         = sink outs stdoutOutput jsonOutput w)
    ∧ named [baseName +:+ ".csr"] outs
      = [mkOutputFile (baseName +:+ ".csr") s false (oct 6 4 4)].
Proof.
  intros Hu Hfound Hs Hcert Hkey Henc Hbundle Hocsp.
  assert (consulted input "csr" "certificate_request" = Some (JStr s)) as Hc.
  { unfold consulted. by destruct Hfound as [->|[-> ->]]. }
  assert (csr_ok input) as Hcsr by (unfold csr_ok; by rewrite Hc).
  exists (artifacts baseName input). split; [|split].
  - by apply extract_ok.
  - intros so jo. by apply (writeOutput_ok _ _ _ _ _ _ w').
  - rewrite named_csr_artifacts, Hc. unfold text_artifact.
    by destruct (decide (s ≠ EmptyString)).
Qed.

(** The bundle is read under the key [result] of the mapping the steps
    work on, so in non-bare mode under [result] of [result].  Where that
    key holds no mapping, the key [bundle] of the mapping itself is never
    read, the bundle step neither fails nor appends, and no artifact is
    named [<base>-bundle.pem] or [<base>-root.pem]. *)
Theorem bundle_outside_result_is_ignored baseName (input : gmap string json) w w' outs :
  (∀ result, input !! "result" ≠ Some (JObj result)) →
  extract baseName input w = (w', inr outs) →
  named [baseName +:+ "-bundle.pem"; baseName +:+ "-root.pem"] outs = []
  ∧ bundle_step baseName input outs w = (w, inr outs)
  ∧ ∀ v w0, extract baseName (<["bundle" := v]> input) w0 = extract baseName input w0.
Proof.
  intros Hres Hrun.
  assert (inner_bundle input = None) as Hinner.
  { unfold inner_bundle. destruct (input !! "result") as [[| | | | |result]|] eqn:E;
      try done. by destruct (Hres result). }
  destruct (extract_inv _ _ _ _ _ Hrun) as (_ & -> & _).
  split; [|split].
  - rewrite named_bundle_artifacts. unfold bundle_artifacts. by rewrite Hinner.
  - by rewrite bundle_step_run, Hinner.
  - intros v w0. apply extract_ext; by rewrite ?lookup_insert_ne by done.
Qed.

(** The file names the field steps can give, in their order. *)
Lemma artifact_names_sublist baseName input :
  map Filename (artifacts baseName input) `sublist_of`
    [baseName +:+ ".pem"; baseName +:+ "-key.pem"; baseName +:+ "-key.enc";
     baseName +:+ ".csr"; baseName +:+ "-bundle.pem"; baseName +:+ "-root.pem";
     baseName +:+ "-response.der"].
Proof.
  unfold artifacts. rewrite !map_app.
  change [baseName +:+ ".pem"; baseName +:+ "-key.pem"; baseName +:+ "-key.enc";
          baseName +:+ ".csr"; baseName +:+ "-bundle.pem"; baseName +:+ "-root.pem";
          baseName +:+ "-response.der"]
    with ([baseName +:+ ".pem"] ++ [baseName +:+ "-key.pem"]
          ++ [baseName +:+ "-key.enc"] ++ [baseName +:+ ".csr"]
          ++ [baseName +:+ "-bundle.pem"; baseName +:+ "-root.pem"]
          ++ [baseName +:+ "-response.der"]).
  repeat apply sublist_app; try apply text_artifact_sublist.
  - unfold encrypted_key_artifact.
    destruct (input !! "encrypted_key") as [[]|]; try apply sublist_nil_l. done.
  - unfold bundle_artifacts.
    destruct (inner_bundle input) as [bundle|]; [|apply sublist_nil_l].
    destruct (bundle !! "bundle") as [[]|]; try apply sublist_nil_l.
    destruct (bundle !! "root") as [[]|]; try apply sublist_nil_l. done.
  - unfold ocsp_artifact.
    destruct (input !! "ocspResponse") as [[]|]; try apply sublist_nil_l.
    destruct (base64_DecodeString s); [apply sublist_nil_l | done].
Qed.

Lemma artifact_names_NoDup baseName input :
  NoDup (map Filename (artifacts baseName input)).
Proof.
  eapply sublist_NoDup; [|apply artifact_names_sublist].
  repeat (apply NoDup_cons; split; [names_differ|]). apply NoDup_nil_2.
Qed.

(** No two artifacts of a run carry the same file name, whatever the base
    name: one run never writes a file twice. *)
Theorem artifact_names_distinct baseName input w w' outs :
  extract baseName input w = (w', inr outs) →
  NoDup (map Filename outs).
Proof.
  intros Hrun. destruct (extract_inv _ _ _ _ _ Hrun) as (_ & -> & _).
  apply artifact_names_NoDup.
Qed.

(** The mapping built for the JSON output, entry by entry. *)
Lemma jsonOutputDict_foldl_off (outs : list outputFile) (dict : gmap string string) k :
  k ∉ map Filename outs →
  foldl (λ dict o, <[Filename o := shown o]> dict) dict outs !! k = dict !! k.
Proof.
  revert dict. induction outs as [|a outs IH]; intros dict Hk; [done|].
  simpl in *. apply not_elem_of_cons in Hk as [Hne Hk].
  rewrite IH by done. by rewrite lookup_insert_ne.
Qed.

Lemma jsonOutputDict_foldl_on (outs : list outputFile) (dict : gmap string string) o :
  NoDup (map Filename outs) → o ∈ outs →
  foldl (λ dict o, <[Filename o := shown o]> dict) dict outs !! Filename o
  = Some (shown o).
Proof.
  revert dict. induction outs as [|a outs IH]; intros dict Hnd Ho.
  - by apply elem_of_nil in Ho.
  - simpl in *. apply NoDup_cons in Hnd as [Ha Hnd].
    apply elem_of_cons in Ho as [->|Ho].
    + rewrite jsonOutputDict_foldl_off by done. by rewrite lookup_insert_eq.
    + by apply IH.
Qed.

Lemma jsonOutputDict_foldl_dom (outs : list outputFile) (dict : gmap string string) :
  dom (foldl (λ dict o, <[Filename o := shown o]> dict) dict outs)
  = dom dict ∪ list_to_set (map Filename outs).
Proof.
  revert dict. induction outs as [|a outs IH]; intros dict; simpl.
  - by rewrite (right_id_L ∅ (∪)).
  - rewrite IH, dom_insert_L.
    by rewrite (comm_L (∪) {[Filename a]} (dom dict)), (assoc_L (∪)).
Qed.

(** In JSON mode no artifact is lost: the object has one member for each
    artifact of the run, under its file name, holding its contents (in
    base64 for a binary one). *)
Theorem json_object_holds_every_artifact baseName input w w' outs :
  extract baseName input w = (w', inr outs) →
  (∀ o, o ∈ outs → jsonOutputDict outs !! Filename o = Some (shown o))
  ∧ (∀ k, is_Some (jsonOutputDict outs !! k) ↔ k ∈ map Filename outs)
  ∧ size (jsonOutputDict outs) = List.length outs.
Proof.
  intros Hrun.
  assert (NoDup (map Filename outs)) as Hnd.
  { destruct (extract_inv _ _ _ _ _ Hrun) as (_ & -> & _).
    apply artifact_names_NoDup. }
  assert (dom (jsonOutputDict outs) = list_to_set (map Filename outs)) as Hdom.
  { unfold jsonOutputDict.
    by rewrite jsonOutputDict_foldl_dom, dom_empty_L, (left_id_L ∅ (∪)). }
  split; [|split].
  - intros o Ho. by apply jsonOutputDict_foldl_on.
  - intros k. rewrite <- elem_of_dom, Hdom. apply elem_of_list_to_set.
  - rewrite <- size_dom, Hdom, size_list_to_set by done. by rewrite length_map.
Qed.

(** The field steps read nine keys and no other: an entry under any
    other key, whatever its value, added, replaced or removed, changes
    nothing of what they do. *)
Theorem unread_keys_do_not_matter baseName (input : gmap string json) k w :
  k ∉ ["cert"; "certificate"; "key"; "private_key"; "encrypted_key";
       "csr"; "certificate_request"; "result"; "ocspResponse"] →
  (∀ v, extract baseName (<[k := v]> input) w = extract baseName input w)
  ∧ extract baseName (delete k input) w = extract baseName input w.
Proof.
  intros Hk.
  repeat (apply not_elem_of_cons in Hk as [? Hk]).
  split.
  - intros v. apply extract_ext; by rewrite ?lookup_insert_ne by done.
  - apply extract_ext; by rewrite ?lookup_delete_ne by done.
Qed.

End Fields.

(** ** How a run ends, and what it leaves behind *)

Section Outcomes.
Context {L : GoLib}.

Lemma append_nonempty (a b : string) : a ≠ EmptyString → a +:+ b ≠ EmptyString.
Proof. destruct a; [done|]. by rewrite append_cons. Qed.

Lemma line_nonempty (a : string) : a +:+ LF ≠ EmptyString.
Proof. destruct a; [done|]. by rewrite append_cons. Qed.

(** Unwrapping stops only by exit status 1, after a diagnostic. *)
Lemma unwrap_halts fileData bare w w' h :
  unwrap fileData bare w = (w', inl h) →
  h = Exit 1 ∧ ∃ text, text ≠ EmptyString ∧ w' = to_stderr text w.
Proof.
  destruct bare.
  - rewrite unwrap_bare_run.
    destruct (json_Unmarshal_map fileData); intros ?; simplify_eq.
    split; [done|]. eexists; split; [|done]. by apply append_nonempty.
  - rewrite unwrap_envelope_run.
    destruct (json_Unmarshal_Response fileData) as [err|r].
    + intros ?; simplify_eq.
      split; [done|]. eexists; split; [|done]. by apply append_nonempty.
    + destruct (Success r); intros ?; simplify_eq.
      split; [done|]. eexists; split; [|done].
      unfold request_failed_text. by apply append_nonempty.
Qed.

(** The field steps stop by a failed type assertion, which leaves the
    world as it was, or by exit status 1 after a diagnostic. *)
Lemma extract_halts baseName input w w' h :
  extract baseName input w = (w', inl h) →
  (∃ v, h = Panic (TypeAssertionError v) ∧ w' = w)
  ∨ (h = Exit 1 ∧ ∃ text, text ≠ EmptyString ∧ w' = to_stderr text w).
Proof.
  destruct (cert_step_cases baseName input) as [Hcert|[v Hv]].
  2: { unfold extract. rewrite bind_run, Hv. intros ?; simplify_eq. left. by exists v. }
  destruct (key_step_cases baseName input) as [Hkey|[v Hv]].
  2: { unfold extract. rewrite bind_run, cert_step_ok by done. cbv beta iota.
       rewrite bind_run, Hv. intros ?; simplify_eq. left. by exists v. }
  destruct (encrypted_key_step_cases baseName input) as [Henc|[v Hv]].
  2: { unfold extract. rewrite bind_run, cert_step_ok by done. cbv beta iota.
       rewrite bind_run, key_step_ok by done. cbv beta iota.
       rewrite bind_run, Hv. intros ?; simplify_eq. left. by exists v. }
  destruct (csr_step_cases baseName input) as [Hcsr|[v Hv]].
  2: { unfold extract. rewrite bind_run, cert_step_ok by done. cbv beta iota.
       rewrite bind_run, key_step_ok by done. cbv beta iota.
       rewrite bind_run, encrypted_key_step_ok by done. cbv beta iota.
       rewrite bind_run, Hv. intros ?; simplify_eq. left. by exists v. }
  rewrite extract_fields_ok by done.
  rewrite bind_run, bundle_step_run.
  destruct (inner_bundle input) as [bundle|].
  - destruct (bundle !! "bundle") as [[]|];
      try (intros ?; simplify_eq; right; split; [done|];
           eexists; split; [|done]; by apply append_nonempty).
    destruct (bundle !! "root") as [[]|];
      try (intros ?; simplify_eq; right; split; [done|];
           eexists; split; [|done]; by apply append_nonempty).
    rewrite ocsp_step_run.
    destruct (input !! "ocspResponse") as [[]|]; intros ?; simplify_eq;
      try (left; by eexists).
    destruct (base64_DecodeString _); simplify_eq.
    right. split; [done|]. eexists; split; [|done]. by apply append_nonempty.
  - rewrite ocsp_step_run.
    destruct (input !! "ocspResponse") as [[]|]; intros ?; simplify_eq;
      try (left; by eexists).
    destruct (base64_DecodeString _); simplify_eq.
    right. split; [done|]. eexists; split; [|done]. by apply append_nonempty.
Qed.

Lemma writeFile_run filespec contents perms w :
  writeFile filespec contents perms w
  = match WriteFile_err filespec contents perms w with
    | Some err => (to_stderr (Error err +:+ LF) w, inl (Exit 1))
    | None => (to_files [(filespec, contents, perms)] w, inr tt)
    end.
Proof.
  unfold writeFile. rewrite bind_run. unfold ioutil_WriteFile.
  by destruct (WriteFile_err filespec contents perms w).
Qed.

(** The default output, write by write: the files written are those of the
    artifacts before the first whose write fails. *)
Lemma sink_files_outcome outs w :
  sink outs false false w = (to_files (map file_entry outs) w, inr tt)
  ∨ ∃ pre o post err,
      outs = pre ++ o :: post
      ∧ sink outs false false w
        = (to_stderr (Error err +:+ LF) (to_files (map file_entry pre) w),
           inl (Exit 1)).
Proof.
  revert w. induction outs as [|a outs IH]; intros w.
  - left. unfold sink. simpl. by rewrite ret_run, to_files_nil.
  - unfold sink in *. simpl for_range. rewrite bind_run, writeFile_run.
    destruct (WriteFile_err (Filename a) (Contents a) (Perms a) w) as [err|] eqn:E.
    + right. exists (@nil outputFile), a, outs, err. split; [done|].
      change (map file_entry []) with (@nil (string * string * FileMode)).
      by rewrite to_files_nil.
    + destruct (IH (to_files [(Filename a, Contents a, Perms a)] w))
        as [Hok|(pre & o & post & err & -> & Hrun)].
      * left. rewrite Hok. by rewrite to_files_twice.
      * right. exists (a :: pre), o, post, err. split; [done|].
        rewrite Hrun. by rewrite to_files_twice.
Qed.

(** The output stops only by exit status 1, after a diagnostic, and then
    standard output has received nothing. *)
Lemma sink_halts outs stdoutOutput jsonOutput w w' h :
  sink outs stdoutOutput jsonOutput w = (w', inl h) →
  h = Exit 1 ∧ stdout w' = stdout w
  ∧ ∃ text, text ≠ EmptyString ∧ stderr w' = stderr w +:+ text.
Proof.
  destruct jsonOutput.
  - rewrite sink_json_run. destruct (json_Marshal _); intros ?; simplify_eq.
    repeat split. eexists; split; [|done]. by apply append_nonempty.
  - destruct stdoutOutput.
    + rewrite sink_stdout_run. intros ?; simplify_eq.
    + destruct (sink_files_outcome outs w) as [->|(pre & o & post & err & _ & ->)];
        intros ?; simplify_eq.
      repeat split. eexists; split; [|done]. apply line_nonempty.
Qed.

(** An output that completes has written nothing to the diagnostic
    stream. *)
Lemma sink_returns outs stdoutOutput jsonOutput w w' :
  sink outs stdoutOutput jsonOutput w = (w', inr tt) → stderr w' = stderr w.
Proof.
  destruct jsonOutput.
  - rewrite sink_json_run. destruct (json_Marshal _); intros ?; by simplify_eq.
  - destruct stdoutOutput.
    + rewrite sink_stdout_run. intros ?; by simplify_eq.
    + destruct (sink_files_outcome outs w) as [->|(pre & o & post & err & _ & ->)];
        intros ?; by simplify_eq.
Qed.

(** Printing writes no file, and writing files prints nothing. *)
Lemma sink_one_way outs w :
  (∀ jsonOutput, files (sink outs true jsonOutput w).1 = files w)
  ∧ (∀ stdoutOutput, files (sink outs stdoutOutput true w).1 = files w)
  ∧ stdout (sink outs false false w).1 = stdout w.
Proof.
  split; [|split].
  - intros [|]; [|by rewrite sink_stdout_run].
    rewrite sink_json_run. by destruct (json_Marshal _).
  - intros so. rewrite sink_json_run. by destruct (json_Marshal _).
  - by destruct (sink_files_outcome outs w) as [->|(pre & o & post & err & _ & ->)].
Qed.

(** [writeOutput], phase by phase. *)
Lemma writeOutput_phases baseName fileData bare stdoutOutput jsonOutput w :
  (∃ w1 h, unwrap fileData bare w = (w1, inl h)
     ∧ writeOutput baseName fileData bare stdoutOutput jsonOutput w = (w1, inl h))
  ∨ (∃ input w1 h, unwrap fileData bare w = (w, inr input)
       ∧ extract baseName input w = (w1, inl h)
       ∧ writeOutput baseName fileData bare stdoutOutput jsonOutput w = (w1, inl h))
  ∨ (∃ input outs, unwrap fileData bare w = (w, inr input)
       ∧ extract baseName input w = (w, inr outs)
       ∧ writeOutput baseName fileData bare stdoutOutput jsonOutput w
         = sink outs stdoutOutput jsonOutput w).
Proof.
  unfold writeOutput. rewrite bind_run.
  destruct (unwrap fileData bare w) as [w1 [h|input]] eqn:Hu.
  - left. by exists w1, h.
  - destruct (unwrap_inv _ _ _ _ _ Hu) as [-> _]. right.
    rewrite bind_run.
    destruct (extract baseName input w) as [w2 [h|outs]] eqn:He.
    + left. by exists input, w2, h.
    + destruct (extract_inv _ _ _ _ _ He) as (-> & _). right. by exists input, outs.
Qed.

(** A run that does not complete has printed nothing on standard output.
    It ends either with exit status 1, after a diagnostic on the
    diagnostic stream, or in the panic of a failed type assertion, and
    then the program has written nothing at all. *)
Theorem failed_run_prints_nothing
    baseName fileData bare stdoutOutput jsonOutput w w' h :
  writeOutput baseName fileData bare stdoutOutput jsonOutput w = (w', inl h) →
  stdout w' = stdout w
  ∧ ((h = Exit 1 ∧ ∃ text, text ≠ EmptyString ∧ stderr w' = stderr w +:+ text)
     ∨ (∃ v, h = Panic (TypeAssertionError v) ∧ w' = w)).
Proof.
  intros Hrun.
  destruct (writeOutput_phases baseName fileData bare stdoutOutput jsonOutput w)
    as [(w1 & h1 & Hu & Hw)|[(input & w1 & h1 & _ & He & Hw)
                            |(input & outs & _ & _ & Hs)]].
  - rewrite Hrun in Hw. simplify_eq.
    destruct (unwrap_halts _ _ _ _ _ Hu) as (-> & text & Ht & ->).
    split; [done|]. left. split; [done|]. by exists text.
  - rewrite Hrun in Hw. simplify_eq.
    destruct (extract_halts _ _ _ _ _ He) as [(v & -> & ->)|(-> & text & Ht & ->)].
    + split; [done|]. right. by exists v.
    + split; [done|]. left. split; [done|]. by exists text.
  - rewrite Hs in Hrun.
    destruct (sink_halts _ _ _ _ _ _ Hrun) as (-> & Hout & Herr).
    split; [done|]. by left.
Qed.

(** A run that completes has written nothing to the diagnostic stream. *)
Theorem completed_run_reports_nothing
    baseName fileData bare stdoutOutput jsonOutput w w' :
  writeOutput baseName fileData bare stdoutOutput jsonOutput w = (w', inr tt) →
  stderr w' = stderr w.
Proof.
  intros Hrun.
  destruct (writeOutput_phases baseName fileData bare stdoutOutput jsonOutput w)
    as [(w1 & h1 & _ & Hw)|[(input & w1 & h1 & _ & _ & Hw)
                           |(input & outs & _ & _ & Hs)]].
  - rewrite Hrun in Hw. simplify_eq.
  - rewrite Hrun in Hw. simplify_eq.
  - rewrite Hs in Hrun. by apply (sink_returns _ _ _ _ _ Hrun).
Qed.

Lemma writeOutput_one_way baseName fileData bare w :
  (∀ jsonOutput,
     files (writeOutput baseName fileData bare true jsonOutput w).1 = files w)
  ∧ (∀ stdoutOutput,
       files (writeOutput baseName fileData bare stdoutOutput true w).1 = files w)
  ∧ stdout (writeOutput baseName fileData bare false false w).1 = stdout w.
Proof.
  assert (∀ so jo,
    (∀ outs, files (sink outs so jo w).1 = files w) →
    files (writeOutput baseName fileData bare so jo w).1 = files w) as Hfiles.
  { intros so jo Hsink.
    destruct (writeOutput_phases baseName fileData bare so jo w)
      as [(w1 & h1 & Hu & ->)|[(input & w1 & h1 & _ & He & ->)
                              |(input & outs & _ & _ & ->)]].
    - by destruct (unwrap_halts _ _ _ _ _ Hu) as (_ & text & _ & ->).
    - by destruct (extract_halts _ _ _ _ _ He) as [(v & _ & ->)|(_ & text & _ & ->)].
    - apply Hsink. }
  split; [|split].
  - intros jo. apply Hfiles. intros outs. apply sink_one_way.
  - intros so. apply Hfiles. intros outs. apply sink_one_way.
  - destruct (writeOutput_phases baseName fileData bare false false w)
      as [(w1 & h1 & Hu & ->)|[(input & w1 & h1 & _ & He & ->)
                              |(input & outs & _ & _ & ->)]].
    + by destruct (unwrap_halts _ _ _ _ _ Hu) as (_ & text & _ & ->).
    + by destruct (extract_halts _ _ _ _ _ He) as [(v & _ & ->)|(_ & text & _ & ->)].
    + apply sink_one_way.
Qed.

(** The three ways of output exclude each other: with [stdoutOutput] or
    [jsonOutput] no file is written, however the run ends, and with
    neither nothing is printed on standard output. *)
Theorem output_goes_one_way baseName fileData bare w :
  (∀ jsonOutput,
     files (writeOutput baseName fileData bare true jsonOutput w).1 = files w)
  ∧ (∀ stdoutOutput,
       files (writeOutput baseName fileData bare stdoutOutput true w).1 = files w)
  ∧ stdout (writeOutput baseName fileData bare false false w).1 = stdout w.
Proof. apply writeOutput_one_way. Qed.

(** Nothing is rolled back: when the write of an artifact fails after the
    artifacts before it were written, those files stay, the error goes to
    the diagnostic stream, the process exits with status 1, and the
    artifacts after it are not written. *)
Theorem files_before_failure_remain pre o post w err :
  (∀ k o', pre !! k = Some o' →
     WriteFile_err (Filename o') (Contents o') (Perms o')
       (to_files (map file_entry (take k pre)) w) = None) →
  WriteFile_err (Filename o) (Contents o) (Perms o)
    (to_files (map file_entry pre) w) = Some err →
  sink (pre ++ o :: post) false false w
  = (to_stderr (Error err +:+ LF) (to_files (map file_entry pre) w), inl (Exit 1)).
Proof.
  revert w. induction pre as [|a pre IH]; intros w Hpre Hfail.
  - simpl in *. rewrite to_files_nil in *.
    unfold sink. simpl for_range. by rewrite bind_run, writeFile_run, Hfail.
  - unfold sink in *. simpl app. simpl for_range. rewrite bind_run, writeFile_run.
    pose proof (Hpre 0%nat a eq_refl) as Ha. simpl in Ha.
    rewrite to_files_nil in Ha. rewrite Ha.
    rewrite IH.
    + simpl map. by rewrite to_files_twice.
    + intros k o' Hk. rewrite to_files_twice.
      apply (Hpre (S k) o' Hk).
    + rewrite to_files_twice. exact Hfail.
Qed.

(** *** The base name *)

Lemma text_artifact_shown o f1 f2 perms :
  map shown (text_artifact o f1 perms) = map shown (text_artifact o f2 perms).
Proof.
  unfold text_artifact. destruct o as [[]|]; try done. by destruct (decide _).
Qed.

Lemma artifacts_shown b1 b2 input :
  map shown (artifacts b1 input) = map shown (artifacts b2 input).
Proof.
  assert (map shown (encrypted_key_artifact b1 input)
          = map shown (encrypted_key_artifact b2 input)) as Henc.
  { unfold encrypted_key_artifact. by destruct (input !! "encrypted_key") as [[]|]. }
  assert (map shown (bundle_artifacts b1 input)
          = map shown (bundle_artifacts b2 input)) as Hbundle.
  { unfold bundle_artifacts. destruct (inner_bundle input) as [bundle|]; [|done].
    destruct (bundle !! "bundle") as [[]|]; try done.
    by destruct (bundle !! "root") as [[]|]. }
  assert (map shown (ocsp_artifact b1 input)
          = map shown (ocsp_artifact b2 input)) as Hocsp.
  { unfold ocsp_artifact. destruct (input !! "ocspResponse") as [[]|]; try done.
    by destruct (base64_DecodeString s). }
  unfold artifacts. rewrite !map_app, Henc, Hbundle, Hocsp.
  rewrite (text_artifact_shown _ (b1 +:+ ".pem") (b2 +:+ ".pem")).
  rewrite (text_artifact_shown _ (b1 +:+ "-key.pem") (b2 +:+ "-key.pem")).
  by rewrite (text_artifact_shown _ (b1 +:+ ".csr") (b2 +:+ ".csr")).
Qed.

Lemma extract_halt_any_base b1 b2 input w w' h :
  extract b1 input w = (w', inl h) → extract b2 input w = (w', inl h).
Proof.
  destruct (extract_cases b1 input) as [(Hc&Hk&He&Hr&Hb&Ho&Hok)|Hbad].
  { rewrite Hok. intros ?; simplify_eq. }
  clear Hbad. unfold extract.
  rewrite !bind_run, !cert_step_run.
  destruct (consulted input "cert" "certificate") as [[]|]; try done;
  rewrite !bind_run, !key_step_run;
  (destruct (consulted input "key" "private_key") as [[]|]; try done);
  rewrite !bind_run, !encrypted_key_step_run;
  (destruct (input !! "encrypted_key") as [[]|]; try done);
  rewrite !bind_run, !csr_step_run;
  (destruct (consulted input "csr" "certificate_request") as [[]|]; try done);
  rewrite !bind_run, !bundle_step_run;
  (destruct (inner_bundle input) as [bundle|];
   [ destruct (bundle !! "bundle") as [[]|]; try done;
     destruct (bundle !! "root") as [[]|]; try done | ]);
  rewrite !ocsp_step_run;
  (destruct (input !! "ocspResponse") as [[]|]; try done);
  by destruct (base64_DecodeString _).
Qed.

Lemma writeOutput_stdout_any_base b1 b2 fileData bare w :
  writeOutput b1 fileData bare true false w = writeOutput b2 fileData bare true false w.
Proof.
  unfold writeOutput. rewrite !bind_run.
  destruct (unwrap fileData bare w) as [w1 [h|input]]; [done|].
  rewrite !bind_run.
  destruct (extract b1 input w1) as [w2 [h|outs]] eqn:He.
  - by rewrite (extract_halt_any_base b1 b2 _ _ _ _ He).
  - destruct (extract_inv _ _ _ _ _ He) as (-> & -> & ?&?&?&?&?&?).
    rewrite (extract_ok b2) by done.
    rewrite !sink_stdout_run.
    rewrite <- !(map_map shown (λ s, s +:+ LF)).
    by rewrite (artifacts_shown b1 b2).
Qed.

(** The base name only names files.  With [stdoutOutput] and without
    [jsonOutput] a run is the same under any base name, in what it prints
    and in how it ends; and a run that stops in the field steps stops alike
    under any base name. *)
Theorem stdout_output_ignores_base_name b1 b2 fileData bare w :
  writeOutput b1 fileData bare true false w
  = writeOutput b2 fileData bare true false w
  ∧ ∀ input w' h,
      extract b1 input w = (w', inl h) → extract b2 input w = (w', inl h).
Proof.
  split; [apply writeOutput_stdout_any_base|].
  intros input w' h. apply extract_halt_any_base.
Qed.

End Outcomes.

(** ** The command line *)

Section CommandLineProperties.
Context {L : GoLib} {O : GoOS}.

(** With [-version], [main] prints the version text and returns: it does
    not read its input, writes no file and prints no diagnostic, whatever
    the other flags and arguments are. *)
Theorem version_flag_only_prints_version fl w :
  flag_version fl = true →
  main fl w = (to_stdout version_FormatVersion w, inr tt).
Proof. intros Hv. unfold main. by rewrite Hv. Qed.

(** Input that cannot be read stops [main] before anything is decoded:
    the diagnostic stream receives [Failed to read input:] with the error
    and the process exits with status 1.  The input is standard input
    exactly when [-f] is [-]; any other value names a file. *)
Theorem unreadable_input_exits fl w err :
  flag_version fl = false →
  (if decide (flag_f fl = "-") then ioutil_ReadAll_Stdin
   else ioutil_ReadFile (flag_f fl)) = inl err →
  main fl w = (to_stderr ("Failed to read input: " +:+ Error err +:+ LF) w,
               inl (Exit 1)).
Proof.
  intros Hv Hread. unfold main. rewrite Hv, bind_run.
  unfold readFile. by rewrite Hread.
Qed.

(** Without [-version] and with input that can be read, [main] is
    [writeOutput] on the bytes read, and the base name it passes is [cert]
    when no argument follows the flags, and the first such argument
    otherwise; the arguments after the first are not read. *)
Theorem base_name_defaults_to_cert fl w fileData :
  flag_version fl = false →
  (if decide (flag_f fl = "-") then ioutil_ReadAll_Stdin
   else ioutil_ReadFile (flag_f fl)) = inr fileData →
  (flag_args fl = [] →
   main fl w
   = writeOutput "cert" fileData (flag_bare fl)
       (if flag_json fl then true else flag_stdout fl) (flag_json fl) w)
  ∧ (∀ arg0 more, flag_args fl = arg0 :: more →
     main fl w
     = writeOutput arg0 fileData (flag_bare fl)
         (if flag_json fl then true else flag_stdout fl) (flag_json fl) w).
Proof.
  intros Hv Hread. unfold main. rewrite Hv, bind_run.
  unfold readFile. rewrite Hread, ret_run.
  split; [intros ->|intros arg0 more ->]; reflexivity.
Qed.

(** [-json] implies [-stdout]: with [-json], [main] does the same whether
    or not [-stdout] is given, and it never writes a file. *)
Theorem json_flag_implies_stdout fl w :
  flag_json fl = true →
  (∀ so, main (mkFlags (flag_bare fl) (flag_f fl) so true (flag_version fl)
                 (flag_args fl)) w = main fl w)
  ∧ files (main fl w).1 = files w.
Proof.
  intros Hj. split.
  - intros so. unfold main. simpl. by rewrite Hj.
  - unfold main. rewrite Hj. destruct (flag_version fl); [done|].
    rewrite bind_run. destruct (readFile (flag_f fl)) as [err|fileData]; [done|].
    rewrite ret_run. apply writeOutput_one_way.
Qed.

End CommandLineProperties.

(** ** Base64: decoding what was encoded *)

Section Base64.
Import GoModel.

(** Each character of the alphabet stands for the value it encodes. *)
Lemma decodeMap_encodeStd v : (v < 64)%N → decodeMap (encodeStd v) = Some v.
Proof.
  intros Hv.
  assert (forallb (λ n, match decodeMap (encodeStd (N.of_nat n)) with
                        | Some m => N.eqb m (N.of_nat n)
                        | None => false
                        end) (seq 0 64) = true) as Hall by (vm_compute; reflexivity).
  rewrite forallb_forall in Hall.
  specialize (Hall (N.to_nat v)). rewrite N2Nat.id in Hall.
  destruct (decodeMap (encodeStd v)) as [m|].
  - f_equal. apply N.eqb_eq. apply Hall. apply in_seq. lia.
  - discriminate Hall. apply in_seq. lia.
Qed.

Lemma land_63 (v : N) : N.land v 63 = (v mod 64)%N.
Proof. change 63%N with (N.ones 6). by rewrite N.land_ones. Qed.

Lemma land_255 (v : N) : N.land v 255 = (v mod 256)%N.
Proof. change 255%N with (N.ones 8). by rewrite N.land_ones. Qed.

Ltac bits_to_arith :=
  rewrite ?land_63, ?land_255, ?N.shiftr_div_pow2;
  change (2 ^ 18)%N with 262144%N; change (2 ^ 16)%N with 65536%N;
  change (2 ^ 12)%N with 4096%N; change (2 ^ 8)%N with 256%N;
  change (2 ^ 6)%N with 64%N.

Ltac div_arith := zify; Z.to_euclidean_division_equations; lia.

Lemma chr_byte (a : ascii) (n : N) : n = N_of_ascii a → chr n = String a EmptyString.
Proof. intros ->. unfold chr. by rewrite ascii_N_embedding. Qed.

Lemma sextet_bounds (v : N) :
  (v < 16777216 →
   N.shiftr v 18 < 64 ∧ N.land (N.shiftr v 12) 63 < 64
   ∧ N.land (N.shiftr v 6) 63 < 64 ∧ N.land v 63 < 64)%N.
Proof. intros Hv. bits_to_arith. repeat split; div_arith. Qed.

Lemma quantum_of_three (a b c : ascii) :
  let v := (N_of_ascii a * 65536 + N_of_ascii b * 256 + N_of_ascii c)%N in
  quantum_bytes [N.shiftr v 18; N.land (N.shiftr v 12) 63;
                 N.land (N.shiftr v 6) 63; N.land v 63] 4
  = String a (String b (String c EmptyString)).
Proof.
  intros v. pose proof (N_ascii_bounded a). pose proof (N_ascii_bounded b).
  pose proof (N_ascii_bounded c).
  unfold quantum_bytes. cbn [nth].
  rewrite (chr_byte a), (chr_byte b), (chr_byte c); [done|..];
    subst v; bits_to_arith; div_arith.
Qed.

Lemma quantum_of_two (a b : ascii) :
  let v := (N_of_ascii a * 65536 + N_of_ascii b * 256)%N in
  quantum_bytes [N.shiftr v 18; N.land (N.shiftr v 12) 63;
                 N.land (N.shiftr v 6) 63] 3
  = String a (String b EmptyString).
Proof.
  intros v. pose proof (N_ascii_bounded a). pose proof (N_ascii_bounded b).
  unfold quantum_bytes. cbn [nth].
  rewrite (chr_byte a), (chr_byte b); [done|..];
    subst v; bits_to_arith; div_arith.
Qed.

Lemma quantum_of_one (a : ascii) :
  let v := (N_of_ascii a * 65536)%N in
  quantum_bytes [N.shiftr v 18; N.land (N.shiftr v 12) 63] 2
  = String a EmptyString.
Proof.
  intros v. pose proof (N_ascii_bounded a).
  unfold quantum_bytes. cbn [nth].
  rewrite (chr_byte a); [done|]. subst v; bits_to_arith; div_arith.
Qed.

Lemma decode_loop_quantum c0 c1 c2 c3 v0 v1 v2 v3 rest si len dst :
  decodeMap c0 = Some v0 → decodeMap c1 = Some v1 →
  decodeMap c2 = Some v2 → decodeMap c3 = Some v3 →
  decode_loop (String c0 (String c1 (String c2 (String c3 rest)))) si len [] dst
  = decode_loop rest (si + 1 + 1 + 1 + 1)%N len []
      (dst +:+ quantum_bytes [v0; v1; v2; v3] 4).
Proof.
  intros H0 H1 H2 H3. cbn [decode_loop]. rewrite H0, H1, H2, H3. reflexivity.
Qed.

Lemma decode_loop_two c0 c1 c2 v0 v1 v2 si len dst :
  decodeMap c0 = Some v0 → decodeMap c1 = Some v1 → decodeMap c2 = Some v2 →
  decode_loop (String c0 (String c1 (String c2 "="))) si len [] dst
  = inr (dst +:+ quantum_bytes [v0; v1; v2] 3).
Proof.
  intros H0 H1 H2. cbn [decode_loop]. rewrite H0, H1, H2. reflexivity.
Qed.

Lemma decode_loop_one c0 c1 v0 v1 si len dst :
  decodeMap c0 = Some v0 → decodeMap c1 = Some v1 →
  decode_loop (String c0 (String c1 "==")) si len [] dst
  = inr (dst +:+ quantum_bytes [v0; v1] 2).
Proof.
  intros H0 H1. cbn [decode_loop]. rewrite H0, H1. reflexivity.
Qed.

Lemma string_ind3 (P : string → Prop) :
  P EmptyString →
  (∀ a, P (String a EmptyString)) →
  (∀ a b, P (String a (String b EmptyString))) →
  (∀ a b c rest, P rest → P (String a (String b (String c rest)))) →
  ∀ s, P s.
Proof.
  intros H0 H1 H2 H3 s.
  assert (P s ∧ (∀ a, P (String a s)) ∧ (∀ a b, P (String a (String b s))))
    as [? _]; [|done].
  induction s as [|c s (IHs & IH1 & IH2)]; [by auto|].
  split; [apply IH1|]. split; [intros a; apply IH2|]. intros a b. by apply H3.
Qed.

Lemma decode_loop_EncodeToString s :
  ∀ si len dst, decode_loop (EncodeToString s) si len [] dst = inr (dst +:+ s).
Proof.
  induction s as [|a|a b|a b c rest IH] using string_ind3; intros si len dst.
  - simpl. by rewrite append_nil_r.
  - cbn [EncodeToString]. cbv zeta.
    pose proof (N_ascii_bounded a).
    destruct (sextet_bounds (N_of_ascii a * 65536)) as (?&?&?&?); [lia|].
    erewrite decode_loop_one by (by apply decodeMap_encodeStd).
    by rewrite (quantum_of_one a).
  - cbn [EncodeToString]. cbv zeta.
    pose proof (N_ascii_bounded a). pose proof (N_ascii_bounded b).
    destruct (sextet_bounds (N_of_ascii a * 65536 + N_of_ascii b * 256))
      as (?&?&?&?); [lia|].
    erewrite decode_loop_two by (by apply decodeMap_encodeStd).
    by rewrite (quantum_of_two a b).
  - cbn [EncodeToString]. cbv zeta.
    pose proof (N_ascii_bounded a). pose proof (N_ascii_bounded b).
    pose proof (N_ascii_bounded c).
    destruct (sextet_bounds (N_of_ascii a * 65536 + N_of_ascii b * 256 + N_of_ascii c))
      as (?&?&?&?); [lia|].
    erewrite decode_loop_quantum by (by apply decodeMap_encodeStd).
    rewrite (quantum_of_three a b c), IH.
    by rewrite append_assoc.
Qed.

(** Decoding what [EncodeToString] gives returns the bytes encoded. *)
Lemma DecodeString_EncodeToString s : DecodeString (EncodeToString s) = inr s.
Proof. unfold DecodeString. by rewrite decode_loop_EncodeToString. Qed.

End Base64.

(** ** The JSON encoder writes one line *)

Section OneLine.
Import GoModel.

Lemma printable_app a b : printable (a +:+ b) = printable a && printable b.
Proof.
  induction a as [|c a IH]; [done|].
  rewrite append_cons. simpl. by rewrite IH, andb_assoc.
Qed.

Lemma printable_low_byte (c : ascii) :
  (N_of_ascii c < 0x80)%N →
  printable (if html_safe (N_of_ascii c) then String c EmptyString
             else escape_byte (N_of_ascii c)) = true.
Proof.
  intros Hc.
  assert (forallb (λ n, let c := ascii_of_N (N.of_nat n) in
                        printable (if html_safe (N_of_ascii c) then String c EmptyString
                                   else escape_byte (N_of_ascii c))) (seq 0 128) = true)
    as Hall by (vm_compute; reflexivity).
  rewrite forallb_forall in Hall.
  specialize (Hall (N.to_nat (N_of_ascii c))). cbv zeta in Hall.
  rewrite N2Nat.id, ascii_N_embedding in Hall.
  apply Hall, in_seq. lia.
Qed.

Lemma printable_hex_digit n : (n < 16)%N → printable (hex_digit n) = true.
Proof.
  intros Hn.
  assert (forallb (λ n, printable (hex_digit (N.of_nat n))) (seq 0 16) = true)
    as Hall by (vm_compute; reflexivity).
  rewrite forallb_forall in Hall.
  specialize (Hall (N.to_nat n)). rewrite N2Nat.id in Hall.
  apply Hall, in_seq. lia.
Qed.

Lemma byte_in_lower lo hi b : byte_in lo hi b = true → (lo <= b)%N.
Proof. unfold byte_in. intros [H _]%andb_prop. by apply N.leb_le. Qed.

Lemma DecodeRune_high c r rr size :
  DecodeRune (String c r) = (rr, size) →
  (0x80 <= N_of_ascii c)%N →
  ¬ (rr = RuneError ∧ size = 1%nat) →
  high_bytes (size - 1) r.
Proof.
  unfold DecodeRune. intros Hd Hc Hvalid.
  repeat match type of Hd with
         | (if ?b then _ else _) = _ => destruct b eqn:?
         | match ?x with _ => _ end = _ => destruct x eqn:?
         end;
    simplify_eq; try (by destruct Hvalid); simpl;
    repeat match goal with
           | H : _ && _ = true |- _ => apply andb_prop in H as [? ?]
           | H : byte_in ?lo _ _ = true |- _ => apply byte_in_lower in H
           | H : context [if ?b then _ else _] |- _ => destruct b
           end;
    repeat split; lia.
Qed.

Lemma high_bytes_0 s : high_bytes 0 s.
Proof. by destruct s. Qed.

Lemma printable_quote_body s :
  ∀ skip keep, (keep = true → high_bytes skip s) →
               printable (quote_body s skip keep) = true.
Proof.
  induction s as [|c r IH]; intros skip keep Hhigh; [done|].
  cbn [quote_body]. destruct skip as [|k].
  - cbv zeta. destruct (N_of_ascii c <? 128)%N eqn:Hc.
    + apply N.ltb_lt in Hc. rewrite printable_app, printable_low_byte by done.
      apply IH. intros _. apply high_bytes_0.
    + apply N.ltb_ge in Hc.
      destruct (DecodeRune (String c r)) as [rr size] eqn:Hd.
      destruct ((rr =? RuneError)%N && Nat.eqb size 1) eqn:Herr.
      { rewrite printable_app. apply andb_true_intro. split; [done|].
        apply IH. intros _. apply high_bytes_0. }
      assert (high_bytes (size - 1) r) as Hr.
      { apply (DecodeRune_high c r rr size Hd Hc).
        intros [-> ->]. discriminate Herr. }
      destruct ((rr =? 8232) || (rr =? 8233))%N.
      * rewrite !printable_app. rewrite printable_hex_digit.
        2: { change 15%N with (N.ones 4). rewrite N.land_ones.
             apply N.mod_lt. done. }
        rewrite IH by done. done.
      * simpl. rewrite IH by (intros _; exact Hr).
        rewrite andb_true_r. apply N.leb_le. lia.
  - destruct keep.
    + destruct (Hhigh eq_refl) as [Hc Hr]. simpl.
      rewrite IH by (intros _; exact Hr).
      rewrite andb_true_r. apply N.leb_le. lia.
    + apply IH. done.
Qed.

Lemma printable_quote s : printable (quote s) = true.
Proof.
  unfold quote. rewrite append_cons. simpl.
  rewrite printable_app, printable_quote_body; [done|].
  intros _. apply high_bytes_0.
Qed.

Lemma printable_join sep l :
  printable sep = true → Forall (λ x, printable x = true) l →
  printable (join sep l) = true.
Proof.
  intros Hsep. induction 1 as [|x l Hx Hl IH]; [done|].
  destruct l as [|y l]; [done|].
  change (join sep (x :: y :: l)) with (x +:+ sep +:+ join sep (y :: l)).
  by rewrite !printable_app, Hx, Hsep, IH.
Qed.

Lemma printable_Marshal m : ∃ text, Marshal m = inr text ∧ printable text = true.
Proof.
  eexists. split; [reflexivity|].
  rewrite !printable_app. rewrite printable_join; [done|done|].
  apply Forall_forall. intros x [kv [-> _]]%list_elem_of_fmap.
  by rewrite !printable_app, !printable_quote.
Qed.

End OneLine.

(** ** Closed examples, on the model of the library *)

Section Examples.
Import GoModel.

(** C7.  The document with a certificate and a key, base name [mycert],
    JSON output: standard output receives the object of the two artifacts
    and a line feed, and nothing else happens, whatever [stdoutOutput] is
    and whether or not the file system would accept a write.  The artifacts
    are the certificate with mode 0664 and the key with mode 0600, and with
    neither output flag these are the two files written. *)
Theorem mycert_json_output write_err stdoutOutput w :
  let L := lib write_err in
  let fileData := js "{'success':true,'result':{'cert':'CERTDATA','key':'KEYDATA'}}" in
  writeOutput "mycert" fileData false stdoutOutput true w
  = (to_stdout (js "{'mycert-key.pem':'KEYDATA','mycert.pem':'CERTDATA'}" +:+ LF) w,
     inr tt)
  ∧ (∀ input, unwrap fileData false w = (w, inr input) →
     extract "mycert" input w
     = (w, inr [mkOutputFile "mycert.pem" "CERTDATA" false (oct 6 6 4);
                mkOutputFile "mycert-key.pem" "KEYDATA" false (oct 6 0 0)]))
  ∧ (writes_succeed →
     writeOutput "mycert" fileData false false false w
     = (to_files [("mycert.pem", "CERTDATA", oct 6 6 4);
                  ("mycert-key.pem", "KEYDATA", oct 6 0 0)] w,
        inr tt)).
Proof.
  intros L fileData.
  set (input := <["cert" := JStr "CERTDATA"]> (<["key" := JStr "KEYDATA"]> ∅)
                : gmap string json).
  assert (json_Unmarshal_Response fileData = inr (mkResponse true input [] []))
    as Hparse by (vm_compute; reflexivity).
  assert (∀ w, unwrap fileData false w = (w, inr input)) as Hu.
  { intros w0. by rewrite unwrap_envelope_run, Hparse. }
  assert (artifacts "mycert" input
          = [mkOutputFile "mycert.pem" "CERTDATA" false (oct 6 6 4);
             mkOutputFile "mycert-key.pem" "KEYDATA" false (oct 6 0 0)]) as Ha
    by (vm_compute; reflexivity).
  assert (cert_ok input ∧ key_ok input ∧ encrypted_key_ok input ∧ csr_ok input
          ∧ bundle_ok input ∧ ocsp_ok input) as (?&?&?&?&?&?)
    by (vm_compute; tauto).
  split; [|split].
  - rewrite (writeOutput_ok _ _ _ _ _ _ _ _ (Hu w)) by done.
    rewrite sink_json_run, Ha.
    replace (json_Marshal _)
      with (inr (js "{'mycert-key.pem':'KEYDATA','mycert.pem':'CERTDATA'}")
            : GoError + string)
      by (vm_compute; reflexivity).
    reflexivity.
  - intros input' Hu'. rewrite Hu in Hu'. simplify_eq.
    by rewrite extract_ok, Ha.
  - intros Hw. rewrite (writeOutput_ok _ _ _ _ _ _ _ _ (Hu w)) by done.
    by rewrite sink_files_run, Ha.
Qed.

(** *** The claims at concrete inputs *)

(** A closed goal settled by evaluating it. *)
Ltac computed :=
  vm_compute;
  first [ reflexivity | exact I | discriminate
        | let H := fresh in intros H; first [ discriminate H | exact H ] ].

(** [failed_request_stops] on a refused request with two errors and a
    result that holds a certificate. *)
Lemma failed_request_stops_witness :
  let L := lib writable in
  let fileData :=
    js "{'success':false,'result':{'cert':'CERTDATA'},'errors':[{'int':7,'message':'bad request'},{'message':'no signer'}]}" in
  writeOutput "cert" fileData false false false blank
  = (to_stderr ("Request failed:" +:+ LF +:+ TAB +:+ "bad request" +:+ LF
                  +:+ TAB +:+ "no signer" +:+ LF) blank,
     inl (Exit 1)).
Proof.
  intros L fileData.
  refine (proj1 (failed_request_stops "cert" fileData
                   (mkResponse false {["cert" := JStr "CERTDATA"]}
                      [mkResponseMessage 7 "bad request";
                       mkResponseMessage 0 "no signer"] [])
                   false false blank _ _));
    computed.
Defined.



(** C1 as written does not hold.  For the empty string under [cert] the
    response is accepted and the run ends normally without any artifact
    and without writing a file.  For a certificate beside a key that is a
    number the run ends in the panic of the type assertion on [key], and
    again nothing is written. *)
Lemma cert_artifact_not_always_emitted :
  let L := lib writable in
  (let fileData := js "{'success':true,'result':{'cert':''}}" in
   let response := mkResponse true {["cert" := JStr EmptyString]} [] [] in
   json_Unmarshal_Response fileData = inr response
   ∧ Success response = true
   ∧ Result response !! "cert" = Some (JStr EmptyString)
   ∧ extract "cert" (Result response) blank = (blank, inr [])
   ∧ writeOutput "cert" fileData false false false blank = (blank, inr tt))
  ∧ (let fileData := js "{'success':true,'result':{'cert':'CERTDATA','key':5}}" in
     let response :=
       mkResponse true {["cert" := JStr "CERTDATA"; "key" := JNum "5"]} [] [] in
     json_Unmarshal_Response fileData = inr response
     ∧ Success response = true
     ∧ Result response !! "cert" = Some (JStr "CERTDATA")
     ∧ writeOutput "cert" fileData false false false blank
       = (blank, inl (Panic (TypeAssertionError (JNum "5"))))).
Proof. cbv zeta. repeat split; computed. Qed.

(** [cert_artifact_emitted] on a response with a certificate and an empty
    request. *)
Lemma cert_artifact_emitted_witness :
  let L := lib writable in
  let baseName := "cert" in
  let fileData := js "{'success':true,'result':{'cert':'CERTDATA','csr':''}}" in
  let response :=
    mkResponse true {["cert" := JStr "CERTDATA"; "csr" := JStr EmptyString]} [] [] in
  ∃ rest,
    let pem := mkOutputFile (baseName +:+ ".pem") "CERTDATA" false (oct 6 6 4) in
    (∀ w, extract baseName (Result response) w = (w, inr (pem :: rest)))
    ∧ (∀ stdoutOutput jsonOutput w,
         writeOutput baseName fileData false stdoutOutput jsonOutput w
         = sink (pem :: rest) stdoutOutput jsonOutput w)
    ∧ named [baseName +:+ ".pem"] rest = []
    ∧ (writes_succeed → ∀ w,
         writeOutput baseName fileData false false false w
         = (to_files ((baseName +:+ ".pem", "CERTDATA", oct 6 6 4)
                        :: map file_entry rest) w,
            inr tt)).
Proof.
  intros L baseName fileData response.
  apply (cert_artifact_emitted baseName fileData response "CERTDATA");
    computed.
Defined.



(** C3 as written does not hold when an earlier field is not a string:
    the bundle has no string under [root], yet the run ends in the panic of
    the type assertion on [cert], not in the bundle error. *)
Lemma type_error_before_bundle_error :
  let L := lib writable in
  let fileData := js "{'cert':1,'result':{'bundle':{'bundle':'CHAIN'}}}" in
  let bundle : gmap string json := {["bundle" := JStr "CHAIN"]} in
  let result : gmap string json := {["bundle" := JObj bundle]} in
  let input : gmap string json := {["cert" := JNum "1"; "result" := JObj result]} in
  unwrap fileData true blank = (blank, inr input)
  ∧ input !! "result" = Some (JObj result)
  ∧ result !! "bundle" = Some (JObj bundle)
  ∧ bundle !! "root" = None
  ∧ writeOutput "cert" fileData true false false blank
    = (blank, inl (Panic (TypeAssertionError (JNum "1")))).
Proof. cbv zeta. repeat split; computed. Qed.

(** [incomplete_bundle_fails] on a bundle without [root], beside a
    key. *)
Lemma incomplete_bundle_fails_witness :
  let L := lib writable in
  let fileData := js "{'key':'KEYDATA','result':{'bundle':{'bundle':'CHAIN'}}}" in
  (∃ w'' h,
     writeOutput "cert" fileData true false false blank = (w'', inl h)
     ∧ stdout w'' = stdout blank ∧ files w'' = files blank)
  ∧ writeOutput "cert" fileData true false false blank
    = (to_stderr ("root parsing failed!" +:+ LF) blank, inl (Exit 1)).
Proof.
  intros L fileData.
  set (bundle := {["bundle" := JStr "CHAIN"]} : gmap string json).
  set (result := {["bundle" := JObj bundle]} : gmap string json).
  set (input := {["key" := JStr "KEYDATA"; "result" := JObj result]}
                : gmap string json).
  assert (unwrap fileData true blank = (blank, inr input)) as Hu
    by computed.
  assert (input !! "result" = Some (JObj result)) as Hres
    by computed.
  assert (result !! "bundle" = Some (JObj bundle)) as Hbun
    by computed.
  assert (¬ holds_string (bundle !! "bundle") ∨ ¬ holds_string (bundle !! "root"))
    as Hmissing by (right; computed).
  destruct (incomplete_bundle_fails "cert" fileData true false false
              blank blank input result bundle Hu Hres Hbun Hmissing)
    as (Hfails & Hbundle & _).
  split; [exact Hfails|].
  apply Hbundle; computed.
Defined.

(** C4 as written does not hold when another step stops.  The bundle is
    complete, yet with an OCSP response that does not decode the run exits
    there and emits nothing; and with a certificate that is a number the
    run ends in the panic of the first step, before the bundle is read. *)
Lemma bundle_artifacts_not_always_emitted :
  let L := lib writable in
  let bundle : gmap string json :=
    {["bundle" := JStr "CHAIN"; "root" := JStr "ROOT"]} in
  let result : gmap string json := {["bundle" := JObj bundle]} in
  result !! "bundle" = Some (JObj bundle)
  ∧ bundle !! "bundle" = Some (JStr "CHAIN")
  ∧ bundle !! "root" = Some (JStr "ROOT")
  ∧ (let fileData :=
       js "{'result':{'bundle':{'bundle':'CHAIN','root':'ROOT'}},'ocspResponse':'!'}" in
     let input : gmap string json :=
       {["result" := JObj result; "ocspResponse" := JStr "!"]} in
     unwrap fileData true blank = (blank, inr input)
     ∧ input !! "result" = Some (JObj result)
     ∧ writeOutput "cert" fileData true false false blank
       = (to_stderr
            ("Failed to parse ocspResponse: illegal base64 data at input byte 0"
               +:+ LF) blank,
          inl (Exit 1)))
  ∧ (let fileData :=
       js "{'cert':1,'result':{'bundle':{'bundle':'CHAIN','root':'ROOT'}}}" in
     let input : gmap string json :=
       {["cert" := JNum "1"; "result" := JObj result]} in
     unwrap fileData true blank = (blank, inr input)
     ∧ input !! "result" = Some (JObj result)
     ∧ writeOutput "cert" fileData true false false blank
       = (blank, inl (Panic (TypeAssertionError (JNum "1"))))).
Proof. cbv zeta. repeat split; computed. Qed.

(** [bundle_artifacts_emitted] on a complete bundle beside a
    certificate. *)
Lemma bundle_artifacts_emitted_witness :
  let L := lib writable in
  let baseName := "cert" in
  let fileData :=
    js "{'cert':'CERTDATA','result':{'bundle':{'bundle':'CHAIN','root':'ROOT'}}}" in
  let bundle : gmap string json :=
    {["bundle" := JStr "CHAIN"; "root" := JStr "ROOT"]} in
  let input : gmap string json :=
    {["cert" := JStr "CERTDATA"; "result" := JObj {["bundle" := JObj bundle]}]} in
  ∃ outs,
    extract baseName input blank = (blank, inr outs)
    ∧ (∀ stdoutOutput jsonOutput,
         writeOutput baseName fileData true stdoutOutput jsonOutput blank
         = sink outs stdoutOutput jsonOutput blank)
    ∧ named [baseName +:+ "-bundle.pem"; baseName +:+ "-root.pem"] outs
      = [mkOutputFile (baseName +:+ "-bundle.pem") ("CHAIN" +:+ LF +:+ "ROOT")
           false (oct 6 4 4);
         mkOutputFile (baseName +:+ "-root.pem") "ROOT" false (oct 6 4 4)].
Proof.
  intros L baseName fileData bundle input.
  apply (bundle_artifacts_emitted baseName fileData true blank blank input
           {["bundle" := JObj bundle]} bundle "CHAIN" "ROOT");
    computed.
Defined.

(** C6 as written does not hold when an earlier step stops.  With an OCSP
    response that does not decode and a bundle that lacks its strings, the
    run exits with the bundle error and the decoder's error is never
    reported.  With an OCSP response that decodes and a certificate that
    is a number, the run ends in the panic of the first step and no
    artifact is emitted. *)
Lemma ocsp_step_not_always_reached :
  let L := lib writable in
  (let fileData := js "{'result':{'bundle':{}},'ocspResponse':'!'}" in
   let input : gmap string json :=
     {["result" := JObj {["bundle" := JObj ∅]}; "ocspResponse" := JStr "!"]} in
   unwrap fileData true blank = (blank, inr input)
   ∧ input !! "ocspResponse" = Some (JStr "!")
   ∧ base64_DecodeString "!" = inl (CorruptInputError 0)
   ∧ writeOutput "cert" fileData true false false blank
     = (to_stderr ("inner bundle parsing failed!" +:+ LF) blank, inl (Exit 1)))
  ∧ (let fileData := js "{'cert':1,'ocspResponse':'MAM='}" in
     let input : gmap string json :=
       {["cert" := JNum "1"; "ocspResponse" := JStr "MAM="]} in
     unwrap fileData true blank = (blank, inr input)
     ∧ input !! "ocspResponse" = Some (JStr "MAM=")
     ∧ base64_DecodeString "MAM=" = inr (chr 0x30 +:+ chr 0x03)
     ∧ writeOutput "cert" fileData true false false blank
       = (blank, inl (Panic (TypeAssertionError (JNum "1"))))).
Proof. cbv zeta. repeat split; computed. Qed.

(** [ocsp_response_decoded] on the base64 text of the bytes 0x30 0x03, and
    on the same text without its padding. *)
Lemma ocsp_response_decoded_witness :
  let L := lib writable in
  let baseName := "cert" in
  (let fileData := js "{'ocspResponse':'MAM='}" in
   ∃ before,
     let der := mkOutputFile (baseName +:+ "-response.der")
                  (chr 0x30 +:+ chr 0x03) true (oct 6 4 4) in
     extract baseName {["ocspResponse" := JStr "MAM="]} blank
     = (blank, inr (before ++ [der]))
     ∧ writeOutput baseName fileData true false true blank
       = sink (before ++ [der]) false true blank
     ∧ named [baseName +:+ "-response.der"] before = [])
  ∧ (let fileData := js "{'ocspResponse':'MAM'}" in
     writeOutput baseName fileData true false true blank
     = (to_stderr ("Failed to parse ocspResponse: "
                     +:+ Error (CorruptInputError 0 : GoError) +:+ LF) blank,
        inl (Exit 1))).
Proof.
  intros L baseName. split; intros fileData.
  - assert (unwrap fileData true blank
            = (blank, inr ({["ocspResponse" := JStr "MAM="]} : gmap string json)))
      as Hu by computed.
    exact (ocsp_response_decoded baseName fileData true false true blank blank
             _ "MAM=" Hu eq_refl I I I I I).
  - assert (unwrap fileData true blank
            = (blank, inr ({["ocspResponse" := JStr "MAM"]} : gmap string json)))
      as Hu by computed.
    exact (ocsp_response_decoded baseName fileData true false true blank blank
             _ "MAM" Hu eq_refl I I I I I).
Defined.

(** C9 as written does not hold when another step stops.  [encrypted_key]
    is a string, yet with a request that is a number the run ends in the
    panic of the type assertion on [csr], after the encrypted key was
    appended, and emits nothing; with a certificate that is a number it
    ends in the panic of the first step, before [encrypted_key] is
    read. *)
Lemma encrypted_key_not_always_emitted :
  let L := lib writable in
  (let fileData := js "{'encrypted_key':'','csr':5}" in
   let input : gmap string json :=
     {["encrypted_key" := JStr EmptyString; "csr" := JNum "5"]} in
   unwrap fileData true blank = (blank, inr input)
   ∧ input !! "encrypted_key" = Some (JStr EmptyString)
   ∧ writeOutput "cert" fileData true false false blank
     = (blank, inl (Panic (TypeAssertionError (JNum "5")))))
  ∧ (let fileData := js "{'encrypted_key':'KEYDATA','cert':true}" in
     let input : gmap string json :=
       {["encrypted_key" := JStr "KEYDATA"; "cert" := JBool true]} in
     unwrap fileData true blank = (blank, inr input)
     ∧ input !! "encrypted_key" = Some (JStr "KEYDATA")
     ∧ writeOutput "cert" fileData true false false blank
       = (blank, inl (Panic (TypeAssertionError (JBool true))))).
Proof. cbv zeta. repeat split; computed. Qed.

(** [encrypted_key_emitted_even_empty] on an empty encrypted key beside an
    empty certificate and a key. *)
Lemma encrypted_key_emitted_even_empty_witness :
  let L := lib writable in
  let baseName := "cert" in
  let fileData := js "{'encrypted_key':'','cert':'','key':'KEYDATA'}" in
  let input : gmap string json :=
    {["encrypted_key" := JStr EmptyString; "cert" := JStr EmptyString;
      "key" := JStr "KEYDATA"]} in
  ∃ outs,
    extract baseName input blank = (blank, inr outs)
    ∧ (∀ stdoutOutput jsonOutput,
         writeOutput baseName fileData true stdoutOutput jsonOutput blank
         = sink outs stdoutOutput jsonOutput blank)
    ∧ named [baseName +:+ "-key.enc"] outs
      = [mkOutputFile (baseName +:+ "-key.enc") EmptyString true (oct 6 0 0)]
    ∧ (consulted input "cert" "certificate" = Some (JStr EmptyString) →
       named [baseName +:+ ".pem"] outs = [])
    ∧ (consulted input "key" "private_key" = Some (JStr EmptyString) →
       named [baseName +:+ "-key.pem"] outs = [])
    ∧ (consulted input "csr" "certificate_request" = Some (JStr EmptyString) →
       named [baseName +:+ ".csr"] outs = []).
Proof.
  intros L baseName fileData input.
  apply (encrypted_key_emitted_even_empty baseName fileData true blank blank input);
    computed.
Defined.

(** *** The further properties at concrete inputs *)

(** The OCSP response of two bytes, 0x30 and 0x03, in JSON mode: the
    object printed maps [cert-response.der] to the base64 text itself. *)
Theorem ocsp_response_in_json_mode write_err stdoutOutput w :
  let L := lib write_err in
  let fileData := js "{'success':true,'result':{'ocspResponse':'MAM='}}" in
  base64_DecodeString "MAM=" = inr (chr 0x30 +:+ chr 0x03)
  ∧ writeOutput "cert" fileData false stdoutOutput true w
    = (to_stdout (js "{'cert-response.der':'MAM='}" +:+ LF) w, inr tt).
Proof.
  intros L fileData. split; [computed|].
  set (input := {["ocspResponse" := JStr "MAM="]} : gmap string json).
  assert (unwrap fileData false w = (w, inr input)) as Hu.
  { rewrite unwrap_envelope_run.
    replace (json_Unmarshal_Response fileData)
      with (inr (mkResponse true input [] []) : GoError + Response)
      by computed.
    reflexivity. }
  rewrite (writeOutput_ok _ _ _ _ _ _ _ _ Hu) by computed.
  rewrite sink_json_run.
  replace (json_Marshal _)
    with (inr (js "{'cert-response.der':'MAM='}") : GoError + string)
    by computed.
  reflexivity.
Qed.

(** [default_mode_writes_each_file] on two artifacts. *)
Lemma default_mode_writes_each_file_witness :
  let L := lib writable in
  let outs := [mkOutputFile "cert.pem" "CERTDATA" false (oct 6 6 4);
               mkOutputFile "cert-key.enc" "KEYDATA" true (oct 6 0 0)] in
  sink outs false false blank
  = (to_files (map (λ o, (Filename o, Contents o, Perms o)) outs) blank, inr tt).
Proof.
  intros L outs. apply (default_mode_writes_each_file outs blank).
  intros name data perm w. reflexivity.
Defined.

(** [write_failure_is_fatal] on a file system that refuses every
    write. *)
Lemma write_failure_is_fatal_witness :
  let denied := PathError "open" "cert.pem" "permission denied" in
  let L := lib (λ _ _ _ _, Some denied) in
  let o := mkOutputFile "cert.pem" "CERTDATA" false (oct 6 6 4) in
  let outs := [mkOutputFile "cert-key.pem" "KEYDATA" false (oct 6 0 0)] in
  sink (o :: outs) false false blank
  = (to_stderr (Error (denied : GoError) +:+ LF) blank, inl (Exit 1)).
Proof.
  cbv zeta.
  apply (@write_failure_is_fatal
           (lib (λ _ _ _ _, Some (PathError "open" "cert.pem" "permission denied")))
           _ _ blank (PathError "open" "cert.pem" "permission denied")).
  reflexivity.
Defined.

(** [artifacts_in_field_order] on a mapping whose keys were written in
    another order. *)
Lemma artifacts_in_field_order_witness :
  let L := lib writable in
  let baseName := "cert" in
  let input : gmap string json :=
    {["csr" := JStr "REQUEST"; "cert" := JStr "CERTDATA";
      "ocspResponse" := JStr "MAM="]} in
  map Filename (artifacts baseName input) `sublist_of`
    [baseName +:+ ".pem"; baseName +:+ "-key.pem"; baseName +:+ "-key.enc";
     baseName +:+ ".csr"; baseName +:+ "-bundle.pem"; baseName +:+ "-root.pem";
     baseName +:+ "-response.der"].
Proof.
  intros L baseName input.
  apply (artifacts_in_field_order baseName input blank blank).
  apply extract_ok; computed.
Defined.

(** [undecodable_response_exits] on a response whose [result] is an
    array. *)
Lemma undecodable_response_exits_witness :
  let L := lib writable in
  let fileData := js "{'success':true,'result':[]}" in
  let err : GoError := UnmarshalTypeError "array" "map[string]interface {}" in
  writeOutput "cert" fileData false false false blank
  = (to_stderr ("Failed to parse input: " +:+ Error err +:+ LF) blank, inl (Exit 1)).
Proof.
  intros L fileData err.
  apply (undecodable_response_exits "cert" fileData false false blank err).
  computed.
Defined.

(** A bare document that says [success] false, lists an error and holds a
    certificate: with neither output flag and a file system that accepts
    writes, the certificate is written and nothing is printed. *)
Theorem bare_refusal_still_written w :
  let L := lib writable in
  let fileData :=
    js "{'success':false,'errors':[{'message':'refused'}],'cert':'CERTDATA'}" in
  writeOutput "cert" fileData true false false w
  = (to_files [("cert.pem", "CERTDATA", oct 6 6 4)] w, inr tt).
Proof.
  intros L fileData.
  set (input := {["success" := JBool false;
                  "errors" := JArr [JObj {["message" := JStr "refused"]}];
                  "cert" := JStr "CERTDATA"]} : gmap string json).
  assert (unwrap fileData true w = (w, inr input)) as Hu.
  { rewrite unwrap_bare_run.
    replace (json_Unmarshal_map fileData)
      with (inr input : GoError + gmap string json) by computed.
    reflexivity. }
  rewrite (writeOutput_ok _ _ _ _ _ _ _ _ Hu) by computed.
  rewrite sink_files_run by (intros name data perm w0; reflexivity).
  replace (artifacts "cert" input)
    with [mkOutputFile "cert.pem" "CERTDATA" false (oct 6 6 4)] by computed.
  reflexivity.
Qed.

(** *** Binary artifacts and base64 *)

Lemma joined_app (a b : list string) : joined (a ++ b) = joined a +:+ joined b.
Proof.
  induction a as [|x a IH]; [done|].
  simpl. unfold joined in *. simpl. by rewrite IH, append_assoc.
Qed.

(** What standard output and the JSON object show for a binary artifact
    is its contents in base64: decoding that text gives the contents back,
    byte for byte. *)
Theorem printed_binary_artifact_decodes write_err (o : outputFile) :
  IsBinary o = true →
  base64_DecodeString (GoLib := lib write_err)
    (shown (L := lib write_err) o) = inr (Contents o).
Proof.
  intros Hb. unfold shown. rewrite Hb. apply DecodeString_EncodeToString.
Qed.

(** An OCSP response given as the base64 text of the bytes [resp]: the
    last artifact holds [resp] itself, which is what the default mode
    writes to [<base>-response.der], and with [stdoutOutput] the last line
    printed is the base64 text as it came in. *)
Theorem ocsp_response_round_trip write_err baseName input resp w w' outs :
  input !! "ocspResponse" = Some (JStr (EncodeToString resp)) →
  extract (L := lib write_err) baseName input w = (w', inr outs) →
  ∃ before,
    outs = before
           ++ [mkOutputFile (baseName +:+ "-response.der") resp true (oct 6 4 4)]
    ∧ ∀ w0,
        sink (L := lib write_err) outs true false w0
        = (to_stdout
             (joined (map (λ o, shown (L := lib write_err) o +:+ LF) before)
                +:+ EncodeToString resp +:+ LF) w0,
           inr tt).
Proof.
  intros Hocsp Hrun.
  destruct (extract_inv _ _ _ _ _ Hrun) as (_ & -> & _).
  exists (field_artifacts baseName input ++ bundle_artifacts baseName input).
  assert (ocsp_artifact (L := lib write_err) baseName input
          = [mkOutputFile (baseName +:+ "-response.der") resp true (oct 6 4 4)])
    as Hder.
  { unfold ocsp_artifact. rewrite Hocsp.
    change (base64_DecodeString (EncodeToString resp))
      with (DecodeString (EncodeToString resp)).
    by rewrite DecodeString_EncodeToString. }
  split.
  - by rewrite artifacts_split, Hder, app_assoc.
  - intros w0. rewrite sink_stdout_run, artifacts_split, Hder, app_assoc.
    rewrite map_app, joined_app. simpl. unfold joined at 2. simpl.
    by rewrite append_nil_r.
Qed.

(** With [jsonOutput] the output never fails and is one line: the text
    before the final line feed holds no control character, so no line feed
    and no carriage return, whatever the contents of the artifacts. *)
Theorem json_mode_prints_one_line write_err outs stdoutOutput w :
  ∃ text,
    sink (L := lib write_err) outs stdoutOutput true w
    = (to_stdout (text +:+ LF) w, inr tt)
    ∧ printable text = true.
Proof.
  rewrite sink_json_run.
  destruct (printable_Marshal (jsonOutputDict (L := lib write_err) outs))
    as (text & Hm & Hp).
  exists text. split; [|done].
  change (json_Marshal (jsonOutputDict outs))
    with (Marshal (jsonOutputDict (L := lib write_err) outs)).
  by rewrite Hm.
Qed.

(** *** The properties of the fields and of the outcomes at concrete inputs *)

(** [key_artifact_emitted] on a bare document with the key under its
    second name. *)
Lemma key_artifact_emitted_witness :
  let L := lib writable in
  let baseName := "cert" in
  let fileData := js "{'private_key':'KEYDATA'}" in
  let input : gmap string json := {["private_key" := JStr "KEYDATA"]} in
  ∃ outs,
    extract baseName input blank = (blank, inr outs)
    ∧ (∀ stdoutOutput jsonOutput,
         writeOutput baseName fileData true stdoutOutput jsonOutput blank
         = sink outs stdoutOutput jsonOutput blank)
    ∧ named [baseName +:+ "-key.pem"] outs
      = [mkOutputFile (baseName +:+ "-key.pem") "KEYDATA" false (oct 6 0 0)].
Proof.
  intros L baseName fileData input.
  apply (key_artifact_emitted baseName fileData true blank blank input "KEYDATA");
    [computed | right; split; computed | computed ..].
Defined.

(** [csr_artifact_emitted] on a bare document with a request and a
    certificate. *)
Lemma csr_artifact_emitted_witness :
  let L := lib writable in
  let baseName := "cert" in
  let fileData := js "{'csr':'REQUEST','cert':'CERTDATA'}" in
  let input : gmap string json :=
    {["csr" := JStr "REQUEST"; "cert" := JStr "CERTDATA"]} in
  ∃ outs,
    extract baseName input blank = (blank, inr outs)
    ∧ (∀ stdoutOutput jsonOutput,
         writeOutput baseName fileData true stdoutOutput jsonOutput blank
         = sink outs stdoutOutput jsonOutput blank)
    ∧ named [baseName +:+ ".csr"] outs
      = [mkOutputFile (baseName +:+ ".csr") "REQUEST" false (oct 6 4 4)].
Proof.
  intros L baseName fileData input.
  apply (csr_artifact_emitted baseName fileData true blank blank input "REQUEST");
    [computed | left; computed | computed ..].
Defined.

(** [bundle_outside_result_is_ignored] on the mapping a response yields
    whose [result] holds the bundle directly: nothing is extracted. *)
Lemma bundle_outside_result_is_ignored_witness :
  let L := lib writable in
  let baseName := "cert" in
  let input : gmap string json :=
    {["bundle" := JObj {["bundle" := JStr "CHAIN"; "root" := JStr "ROOT"]}]} in
  json_Unmarshal_Response
    (js "{'success':true,'result':{'bundle':{'bundle':'CHAIN','root':'ROOT'}}}")
  = inr (mkResponse true input [] [])
  ∧ extract baseName input blank = (blank, inr [])
  ∧ named [baseName +:+ "-bundle.pem"; baseName +:+ "-root.pem"] [] = []
  ∧ bundle_step baseName input [] blank = (blank, inr [])
  ∧ ∀ v w0, extract baseName (<["bundle" := v]> input) w0 = extract baseName input w0.
Proof.
  intros L baseName input.
  split; [computed|]. split; [computed|].
  apply (bundle_outside_result_is_ignored baseName input blank blank []).
  - intros result. computed.
  - computed.
Defined.

(** [unread_keys_do_not_matter] on a key that differs from [cert] by
    the case of a letter. *)
Lemma unread_keys_do_not_matter_witness :
  let L := lib writable in
  let input : gmap string json := {["cert" := JStr "CERTDATA"]} in
  (∀ v, extract "cert" (<["Cert" := v]> input) blank = extract "cert" input blank)
  ∧ extract "cert" (delete "Cert" input) blank = extract "cert" input blank.
Proof.
  intros L input.
  apply (unread_keys_do_not_matter "cert" input "Cert" blank).
  repeat (apply not_elem_of_cons; split; [discriminate|]). apply not_elem_of_nil.
Defined.

(** [artifact_names_distinct] on a mapping with every field. *)
Lemma artifact_names_distinct_witness :
  let L := lib writable in
  let baseName := "cert" in
  let input : gmap string json :=
    {["cert" := JStr "CERTDATA"; "key" := JStr "KEYDATA";
      "encrypted_key" := JStr "SECRET"; "csr" := JStr "REQUEST";
      "result" := JObj {["bundle" :=
                           JObj {["bundle" := JStr "CHAIN"; "root" := JStr "ROOT"]}]};
      "ocspResponse" := JStr "MAM="]} in
  List.length (artifacts baseName input) = 7%nat
  ∧ NoDup (map Filename (artifacts baseName input)).
Proof.
  intros L baseName input. split; [computed|].
  apply (artifact_names_distinct baseName input blank blank).
  apply extract_ok; first [computed | split; computed].
Defined.

(** [json_object_holds_every_artifact] on a certificate and an encrypted
    key. *)
Lemma json_object_holds_every_artifact_witness :
  let L := lib writable in
  let baseName := "cert" in
  let input : gmap string json :=
    {["cert" := JStr "CERTDATA"; "encrypted_key" := JStr "SECRET"]} in
  let outs := artifacts baseName input in
  (∀ o, o ∈ outs → jsonOutputDict outs !! Filename o = Some (shown o))
  ∧ (∀ k, is_Some (jsonOutputDict outs !! k) ↔ k ∈ map Filename outs)
  ∧ size (jsonOutputDict outs) = List.length outs.
Proof.
  intros L baseName input outs.
  apply (json_object_holds_every_artifact baseName input blank blank).
  apply extract_ok; computed.
Defined.

(** [failed_run_prints_nothing] on a bundle without its root, with
    [stdoutOutput]: the certificate read before is not printed. *)
Lemma failed_run_prints_nothing_witness :
  let L := lib writable in
  let fileData := js "{'cert':'CERTDATA','result':{'bundle':{'bundle':'CHAIN'}}}" in
  let w' := to_stderr ("root parsing failed!" +:+ LF) blank in
  writeOutput "cert" fileData true true false blank = (w', inl (Exit 1))
  ∧ stdout w' = stdout blank
  ∧ ((Exit 1 = Exit 1
      ∧ ∃ text, text ≠ EmptyString ∧ stderr w' = stderr blank +:+ text)
     ∨ (∃ v, Exit 1 = Panic (TypeAssertionError v) ∧ w' = blank)).
Proof.
  intros L fileData w'.
  assert (writeOutput "cert" fileData true true false blank = (w', inl (Exit 1)))
    as Hrun by computed.
  split; [exact Hrun|].
  exact (failed_run_prints_nothing "cert" fileData true true false blank w'
           (Exit 1) Hrun).
Defined.

(** [completed_run_reports_nothing] on a certificate printed to standard
    output. *)
Lemma completed_run_reports_nothing_witness :
  let L := lib writable in
  let fileData := js "{'cert':'CERTDATA'}" in
  let w' := to_stdout ("CERTDATA" +:+ LF) blank in
  writeOutput "cert" fileData true true false blank = (w', inr tt)
  ∧ stderr w' = stderr blank.
Proof.
  intros L fileData w'.
  assert (writeOutput "cert" fileData true true false blank = (w', inr tt))
    as Hrun by computed.
  split; [exact Hrun|].
  exact (completed_run_reports_nothing "cert" fileData true true false blank w' Hrun).
Defined.

(** [files_before_failure_remain] on a file system that refuses the key
    file only: the certificate is written, the request is not. *)
Lemma files_before_failure_remain_witness :
  let denied := PathError "open" "cert-key.pem" "permission denied" in
  let L := lib (λ name _ _ _,
                  if String.eqb name "cert-key.pem" then Some denied else None) in
  let pre := [mkOutputFile "cert.pem" "CERTDATA" false (oct 6 6 4)] in
  let o := mkOutputFile "cert-key.pem" "KEYDATA" false (oct 6 0 0) in
  let post := [mkOutputFile "cert.csr" "REQUEST" false (oct 6 4 4)] in
  sink (pre ++ o :: post) false false blank
  = (to_stderr (Error (denied : GoError) +:+ LF)
       (to_files (map file_entry pre) blank),
     inl (Exit 1)).
Proof.
  cbv zeta.
  apply (@files_before_failure_remain
           (lib (λ name _ _ _,
                   if String.eqb name "cert-key.pem"
                   then Some (PathError "open" "cert-key.pem" "permission denied")
                   else None))
           [mkOutputFile "cert.pem" "CERTDATA" false (oct 6 6 4)] _ _ blank
           (PathError "open" "cert-key.pem" "permission denied")).
  - intros [|k] o' Hk; [|destruct k; discriminate Hk].
    injection Hk as <-. reflexivity.
  - reflexivity.
Defined.

(** [printed_binary_artifact_decodes] on an encrypted key. *)
Lemma printed_binary_artifact_decodes_witness :
  let o := mkOutputFile "cert-key.enc" "SECRET" true (oct 6 0 0) in
  shown (L := lib writable) o = "U0VDUkVU"
  ∧ base64_DecodeString (GoLib := lib writable) (shown (L := lib writable) o)
    = inr (Contents o).
Proof.
  intros o. split; [computed|].
  apply (printed_binary_artifact_decodes writable o). reflexivity.
Defined.

(** [ocsp_response_round_trip] on the response of two bytes, 0x30 and
    0x03, beside a certificate. *)
Lemma ocsp_response_round_trip_witness :
  let baseName := "cert" in
  let resp := chr 0x30 +:+ chr 0x03 in
  let input : gmap string json :=
    {["cert" := JStr "CERTDATA"; "ocspResponse" := JStr (EncodeToString resp)]} in
  let outs := artifacts (L := lib writable) baseName input in
  EncodeToString resp = "MAM="
  ∧ ∃ before,
      outs = before
             ++ [mkOutputFile (baseName +:+ "-response.der") resp true (oct 6 4 4)]
      ∧ ∀ w0,
          sink (L := lib writable) outs true false w0
          = (to_stdout
               (joined (map (λ o, shown (L := lib writable) o +:+ LF) before)
                  +:+ EncodeToString resp +:+ LF) w0,
             inr tt).
Proof.
  intros baseName resp input outs. split; [computed|].
  apply (ocsp_response_round_trip writable baseName input resp blank blank outs).
  - computed.
  - apply extract_ok; computed.
Defined.

(** *** The command line at concrete inputs *)

(** [version_flag_only_prints_version] with an input file that cannot be
    read and further flags: the input is not touched. *)
Lemma version_flag_only_prints_version_witness :
  let O := os writable ("Version: 1.2.0" +:+ LF) (inl (SyntaxError "closed"))
             (λ path, inl (PathError "open" path "no such file or directory")) in
  let fl := mkFlags true "missing.json" false true true ["mycert"] in
  main (O := O) fl blank = (to_stdout ("Version: 1.2.0" +:+ LF) blank, inr tt).
Proof.
  intros O fl. apply (version_flag_only_prints_version (O := O) fl blank).
  reflexivity.
Defined.

(** [unreadable_input_exits] on a file that does not exist. *)
Lemma unreadable_input_exits_witness :
  let O := os writable ("Version: 1.2.0" +:+ LF) (inr EmptyString)
             (λ path, inl (PathError "open" path "no such file or directory")) in
  let fl := mkFlags false "missing.json" false false false [] in
  main (O := O) fl blank
  = (to_stderr ("Failed to read input: open missing.json: no such file or directory"
                  +:+ LF) blank,
     inl (Exit 1)).
Proof.
  intros O fl.
  apply (unreadable_input_exits (O := O) fl blank
           (PathError "open" "missing.json" "no such file or directory"));
    reflexivity.
Defined.

(** [base_name_defaults_to_cert] on a certificate read from standard
    input, once without arguments and once with two: the file written is
    [cert.pem], then [mycert.pem]. *)
Lemma base_name_defaults_to_cert_witness :
  let L := lib writable in
  let O := os writable ("Version: 1.2.0" +:+ LF)
             (inr (js "{'success':true,'result':{'cert':'CERTDATA'}}"))
             (λ path, inl (PathError "open" path "no such file or directory")) in
  let fileData := js "{'success':true,'result':{'cert':'CERTDATA'}}" in
  let bare_run := mkFlags false "-" false false false [] in
  let named_run := mkFlags false "-" false false false ["mycert"; "other"] in
  (main (O := O) bare_run blank
   = writeOutput "cert" fileData false false false blank
   ∧ main (O := O) bare_run blank
     = (to_files [("cert.pem", "CERTDATA", oct 6 6 4)] blank, inr tt))
  ∧ (main (O := O) named_run blank
     = writeOutput "mycert" fileData false false false blank
     ∧ main (O := O) named_run blank
       = (to_files [("mycert.pem", "CERTDATA", oct 6 6 4)] blank, inr tt)).
Proof.
  intros L O fileData bare_run named_run.
  split; (split; [|computed]).
  - apply (proj1 (base_name_defaults_to_cert (O := O) bare_run blank fileData
                    eq_refl eq_refl)).
    reflexivity.
  - apply (proj2 (base_name_defaults_to_cert (O := O) named_run blank fileData
                    eq_refl eq_refl) "mycert" ["other"]).
    reflexivity.
Defined.

(** [json_flag_implies_stdout] on a response read from standard input. *)
Lemma json_flag_implies_stdout_witness :
  let O := os writable ("Version: 1.2.0" +:+ LF)
             (inr (js "{'success':true,'result':{'cert':'CERTDATA'}}"))
             (λ path, inl (PathError "open" path "no such file or directory")) in
  let fl := mkFlags false "-" false true false ["mycert"] in
  main (O := O) fl blank
  = (to_stdout (js "{'mycert.pem':'CERTDATA'}" +:+ LF) blank, inr tt)
  ∧ (∀ so, main (O := O)
             (mkFlags (flag_bare fl) (flag_f fl) so true (flag_version fl)
                (flag_args fl)) blank
           = main (O := O) fl blank)
  ∧ files (main (O := O) fl blank).1 = files blank.
Proof.
  intros O fl. split; [computed|].
  apply (json_flag_implies_stdout (O := O) fl blank). reflexivity.
Defined.

End Examples.
